(** * US-Stock-Prediction: the inference service of [predict.py]

    A shallow embedding of the schema builder, the model loader and the two
    request handlers ([/predict] and [/health]) of
    [src/US-Stock-Prediction/predict.py], with the properties its
    specification states about them.

    Python dictionaries keep insertion order and the service depends on it
    (the request model's fields and the training columns are both read in
    order), so a dictionary is an association list with Python's update
    rule.  Python floats are IEEE binary64 values, the kernel's [float]. *)

From Stdlib Require Import List String ZArith Bool Permutation Floats DecimalString.
Import ListNotations.

Set Implicit Arguments.
Set Warnings "-register-all,-inexact-float".
Local Open Scope string_scope.
Local Open Scope list_scope.

(** ** Python values, exceptions and dictionaries *)

Module Py.

(** The values a decoded JSON document is made of, which are also the
    values a validated request holds. *)
Inductive value : Type :=
| None_
| Bool (b : bool)
| Int (z : Z)
| Float (f : float)
| Str (s : string)
| List (l : list value)
| Dict (d : list (string * value)).

Inductive exn : Type :=
| KeyError (key : string)
| NameError (name : string)
| IndexError (msg : string)
| AttributeError (msg : string)
| ValueError (msg : string)
| FileNotFoundError (msg : string)
| HTTPException (status_code : Z) (detail : string)
| Exception (msg : string).

Inductive result (A : Type) : Type :=
| Ok (a : A)
| Raise (e : exn).
Arguments Ok {A} a.
Arguments Raise {A} e.

(** [str(e)], as an f-string formats an exception. *)
Definition str_of_exn (e : exn) : string :=
  match e with
  | KeyError k => "'" ++ k ++ "'"
  | NameError n => "name '" ++ n ++ "' is not defined"
  | HTTPException c d => NilZero.string_of_int (Z.to_int c) ++ ": " ++ d
  | IndexError m | AttributeError m | ValueError m | FileNotFoundError m | Exception m => m
  end.

Section Assoc.
Variables K V : Type.
Variable eqb : K -> K -> bool.

(** [d.get(k)]: the first entry under [k]. *)
Fixpoint assoc_get (d : list (K * V)) (k : K) : option V :=
  match d with
  | [] => None
  | (k', v) :: rest => if eqb k' k then Some v else assoc_get rest k
  end.

(** [d.get(k, default)]. *)
Definition assoc_get_default (d : list (K * V)) (k : K) (default : V) : V :=
  match assoc_get d k with
  | Some v => v
  | None => default
  end.

(** [d[k] = v]: an existing key keeps its position, a new key goes last. *)
Fixpoint assoc_set (d : list (K * V)) (k : K) (v : V) : list (K * V) :=
  match d with
  | [] => [(k, v)]
  | (k', v') :: rest =>
      if eqb k' k then (k', v) :: rest else (k', v') :: assoc_set rest k v
  end.
End Assoc.

(** A [dict] with [str] keys. *)
Definition dict (V : Type) : Type := list (string * V).
Definition get {V} (d : dict V) (k : string) : option V := assoc_get String.eqb d k.
Definition get_default {V} (d : dict V) (k : string) (default : V) : V :=
  assoc_get_default String.eqb d k default.
Definition set {V} (d : dict V) (k : string) (v : V) : dict V :=
  assoc_set String.eqb d k v.
Definition keys {V} (d : dict V) : list string := map fst d.
Definition values {V} (d : dict V) : list V := map snd d.

(** A dictionary holds each key once. *)
Definition wf {V} (d : dict V) : Prop := NoDup (keys d).

End Py.

Import Py.

(** ** Schema builder (predict.py, lines 12-37) *)

(** What [feature_types] stores for a column: the class [float], the class
    [int], or, for a dtype the table does not list, the string [str(dtype)]. *)
Inductive python_type : Type :=
| float_
| int_
| label (dtype : string).

Definition dtype_mapping : dict python_type :=
  [ ("float64", float_);
    ("int64", int_);
    ("uint8", int_) ].

(** [dtype_mapping.get(str(dtype), str(dtype))] *)
Definition python_type_of (dtype : string) : python_type :=
  get_default dtype_mapping dtype (label dtype).

(** A dataframe as the service uses it: its column labels and the dtype of
    each column, in column order ([X.dtypes.items()]). *)
Record DataFrame : Type := mkDataFrame { dtypes_items : list (string * string) }.

Definition columns (X : DataFrame) : list string := map fst (dtypes_items X).

(** The body of the loop of lines 30-32: [feature_types[column] = python_type]. *)
Definition schema_step (feature_types : dict python_type) (item : string * string)
  : dict python_type :=
  let '(column, dtype) := item in
  let python_type := python_type_of dtype in
  set feature_types column python_type.

(** The loop of lines 30-32, starting from the empty [feature_types]. *)
Definition build_feature_types (items : list (string * string)) : dict python_type :=
  fold_left schema_step items [].

(** The two-dimensional array [SimpleImputer.fit_transform] returns: one
    dtype for every cell, and a number of columns. *)
Record ndarray : Type := mkNdarray { nd_dtype : string; nd_columns : nat }.

(** [pd.DataFrame(array, columns=labels)]: every column takes the array's
    dtype; the labels must be as many as the array's columns. *)
Definition pd_DataFrame (a : ndarray) (labels : list string) : result DataFrame :=
  if Nat.eqb (nd_columns a) (List.length labels)
  then Ok {| dtypes_items := map (fun c => (c, nd_dtype a)) labels |}
  else Raise (ValueError "Shape of passed values does not match the columns").

(** ** The request model (predict.py, lines 34-37)

    [create_model("InputData", **dynamic_fields)] declares one required
    field per entry of [dynamic_fields], in the dictionary's order, with no
    default.  pydantic's conversion of one input value to one declared type
    is the library's own; the service is verified against its interface.
    The interface describes a field whose annotation is a type, [float] or
    [int]; a dtype label is a string that pydantic has yet to resolve. *)

Class FieldValidator : Type := {
  (** the validated value, or nothing when the input is refused *)
  coerce : python_type -> value -> option value;
  (** a [float] is a valid [float] field and an [int] a valid [int] field *)
  coerce_float : forall f, coerce float_ (Float f) = Some (Float f);
  coerce_int : forall z, coerce int_ (Int z) = Some (Int z)
}.

Record model_class : Type := mkModel {
  model_name : string;
  model_fields : dict python_type
}.

Definition create_model (name : string) (field_definitions : dict python_type) : model_class :=
  {| model_name := name; model_fields := field_definitions |}.

Inductive error_kind : Type :=
| missing          (* "Field required" *)
| invalid          (* the value cannot be converted to the declared type *)
| model_type.      (* the body is not a JSON object *)

(** One entry of the [detail] list of a 422 response. *)
Record validation_error : Type := mkError {
  err_type : error_kind;
  loc : list string
}.

Section Validation.
Context {pydantic : FieldValidator}.

(** Every declared field is looked up by name; all errors are collected.
    Keys of the input that are no field are never read (the default
    [extra='ignore']). *)
Fixpoint validate_fields (fields : dict python_type) (input : dict value)
  : list validation_error * dict value :=
  match fields with
  | [] => ([], [])
  | (name, annotation) :: rest =>
      let (errors, validated) := validate_fields rest input in
      match get input name with
      | None => ({| err_type := missing; loc := ["body"; name] |} :: errors, validated)
      | Some v =>
          match coerce annotation v with
          | None => ({| err_type := invalid; loc := ["body"; name] |} :: errors, validated)
          | Some w => (errors, (name, w) :: validated)
          end
      end
  end.

(** Validation of a request body against a model class: the errors, or
    the instance (its fields in declaration order). *)
Definition model_validate (cls : model_class) (body : value)
  : list validation_error + dict value :=
  match body with
  | Dict input =>
      match validate_fields (model_fields cls) input with
      | ([], validated) => inr validated
      | (errors, _) => inl errors
      end
  | _ => inl [ {| err_type := model_type; loc := ["body"] |} ]
  end.
End Validation.

(** [data.model_dump()] *)
Definition model_dump (data : dict value) : dict value := data.

(** ** Handlers: exceptions and the record of model invocations *)

(** A one-row dataframe: column label and cell, in column order. *)
Definition row_frame : Type := dict value.

(** The loaded pipeline: [predict] on a frame gives the array of class
    codes, or raises. *)
Definition Model : Type := row_frame -> result (list Z).

(** A computation that may raise and that records each frame handed to the
    model's [predict]. *)
Definition M (A : Type) : Type := list row_frame -> result A * list row_frame.

Definition ret {A} (a : A) : M A := fun calls => (Ok a, calls).

Definition bind {A B} (c : M A) (k : A -> M B) : M B :=
  fun calls =>
    match c calls with
    | (Ok a, calls') => k a calls'
    | (Raise e, calls') => (Raise e, calls')
    end.

Definition lift {A} (r : result A) : M A := fun calls => (r, calls).

Declare Scope py_scope.
Delimit Scope py_scope with py.
Notation "x <- c ;; k" := (bind c (fun x => k))
  (at level 61, c at next level, right associativity) : py_scope.

(** Reading a module-level name. *)
Definition global {A} (name : string) (binding : option A) : result A :=
  match binding with
  | Some a => Ok a
  | None => Raise (NameError name)
  end.

(** [pd.DataFrame([record])] *)
Definition pd_DataFrame_records (record : dict value) : row_frame := record.

(** [df[labels]]: the columns under [labels], in the order of [labels]. *)
Fixpoint getitem_columns (df : row_frame) (labels : list string) : result row_frame :=
  match labels with
  | [] => Ok []
  | c :: rest =>
      match get df c with
      | None => Raise (KeyError c)
      | Some v =>
          match getitem_columns df rest with
          | Ok cells => Ok ((c, v) :: cells)
          | Raise e => Raise e
          end
      end
  end.

(** [model.predict(input_df)] *)
Definition model_predict (model : option Model) (input_df : row_frame) : M (list Z) :=
  match model with
  | None => lift (Raise (AttributeError "'NoneType' object has no attribute 'predict'"))
  | Some m => fun calls => (m input_df, calls ++ [input_df])
  end.

(** [a[0]] *)
Definition getitem0 (a : list Z) : result Z :=
  match a with
  | [] => Raise (IndexError "index 0 is out of bounds for axis 0 with size 0")
  | c :: _ => Ok c
  end.

(** ** Module state and start-up (predict.py, lines 24-56) *)

Definition model_filename : string := "xgboost_model.joblib".

Definition prediction_mapping : list (Z * string) :=
  [ (0%Z, "stock_value_decrease");
    (1%Z, "stock_value_increase") ].

(** The module's globals the handlers read.  A name that is not bound is
    [None]; [model] may be bound to Python's [None]. *)
Record globals : Type := mkGlobals {
  X : option DataFrame;
  feature_types : dict python_type;
  InputData : model_class;
  model : option (option Model)
}.

(** Lines 30-37 and the binding of [model], from the imputed frame. *)
Definition module_globals (X_ : DataFrame) (model_ : option Model) : globals :=
  let feature_types_ := build_feature_types (dtypes_items X_) in
  let dynamic_fields := map (fun '(name, dtype) => (name, dtype)) feature_types_ in
  {| X := Some X_;
     feature_types := feature_types_;
     InputData := create_model "InputData" dynamic_fields;
     model := Some model_ |}.

(** What the process finds when it starts: the OpenML dataset, the median
    imputer of scikit-learn, and the outcome of [joblib.load] on a file name. *)
Record environment : Type := mkEnv {
  get_data : result DataFrame;
  fit_transform : DataFrame -> result ndarray;
  joblib_load : string -> result (option Model)
}.

(** Lines 24-28: the dataset, imputed and rebuilt under its own column labels. *)
Definition load_X (env : environment) : result DataFrame :=
  match get_data env with
  | Raise e => Raise e
  | Ok X0 =>
      match fit_transform env X0 with
      | Raise e => Raise e
      | Ok X_imputed => pd_DataFrame X_imputed (columns X0)
      end
  end.

(** Lines 44-50. *)
Definition load_model (env : environment) : result (option Model) :=
  match joblib_load env model_filename with
  | Ok m => Ok m
  | Raise (FileNotFoundError _) =>
      Raise (HTTPException 500 ("Model file '" ++ model_filename ++ "' not found."))
  | Raise e =>
      Raise (HTTPException 500 ("Error loading model: " ++ str_of_exn e))
  end.

(** Executing the module top to bottom. *)
Definition import_module (env : environment) : result globals :=
  match load_X env with
  | Raise e => Raise e
  | Ok X_ =>
      match load_model env with
      | Raise e => Raise e
      | Ok model_ => Ok (module_globals X_ model_)
      end
  end.

(** ** The two endpoints (predict.py, lines 58-85) *)

Section Endpoints.
Context {pydantic : FieldValidator}.
Local Open Scope py_scope.

Definition predict (g : globals) (data : dict value) : M (dict value) :=
  let input_df := pd_DataFrame_records (model_dump data) in
  X_ <- lift (global "X" (X g)) ;;
  input_df <- lift (getitem_columns input_df (columns X_)) ;;
  model_ <- lift (global "model" (model g)) ;;
  raw_prediction <- model_predict model_ input_df ;;
  code <- lift (getitem0 raw_prediction) ;;
  let predicted_label := assoc_get_default Z.eqb prediction_mapping code "Unknown" in
  ret [("prediction", Str predicted_label)].

Definition health (g : globals) : result (dict value) :=
  let model_present :=
    match model g with
    | Some m => match m with Some _ => true | None => false end
    | None => false
    end in
  let n_features :=
    match global "X" (X g) with
    | Ok X_ => Int (Z.of_nat (List.length (columns X_)))
    | Raise _ => None_
    end in
  Ok [("status", Str "ok"); ("model_loaded", Bool model_present); ("n_features", n_features)].

(** What the framework sends back. *)
Inductive response : Type :=
| OK_200 (content : dict value)
| Unprocessable_422 (detail : list validation_error)
| HTTP_error (status_code : Z) (detail : string)
| Internal_500 (e : exn).

(** The framework's answer to what a handler returned or raised: an
    [HTTPException] is answered with its own status code and detail, any
    other exception with 500. *)
Definition respond (r : result (dict value)) : response :=
  match r with
  | Ok content => OK_200 content
  | Raise (HTTPException status_code detail) => HTTP_error status_code detail
  | Raise e => Internal_500 e
  end.

(** [POST /predict]: the body is validated against [InputData] first; the
    handler runs only on an instance. *)
Definition post_predict (g : globals) (body : value) : list row_frame -> response * list row_frame :=
  fun calls =>
    match model_validate (InputData g) body with
    | inl errors => (Unprocessable_422 errors, calls)
    | inr data =>
        let (r, calls') := predict g data calls in (respond r, calls')
    end.

(** [GET /health] *)
Definition get_health (g : globals) : response := respond (health g).

Inductive request : Type :=
| GET_health
| POST_predict (body : value).

Definition handle (g : globals) (rq : request) (calls : list row_frame)
  : response * list row_frame :=
  match rq with
  | GET_health => (get_health g, calls)
  | POST_predict body => post_predict g body calls
  end.

Fixpoint handle_all (g : globals) (rqs : list request) (calls : list row_frame)
  : list response * list row_frame :=
  match rqs with
  | [] => ([], calls)
  | rq :: rest =>
      let (rsp, calls') := handle g rq calls in
      let (rsps, calls'') := handle_all g rest calls' in
      (rsp :: rsps, calls'')
  end.

(** The server process: the application is imported first; when the
    import raises, the process ends with that exception and no request is
    answered. *)
Record run : Type := mkRun {
  startup_error : option exn;
  responses : list response;
  invocations : list row_frame
}.

Definition serve (env : environment) (rqs : list request) : run :=
  match import_module env with
  | Raise e => {| startup_error := Some e; responses := []; invocations := [] |}
  | Ok g =>
      let (rsps, calls) := handle_all g rqs [] in
      {| startup_error := None; responses := rsps; invocations := calls |}
  end.
End Endpoints.

(** Lines 72-74 applied to what [model.predict] gave. *)
Definition prediction_payload (raw_prediction : result (list Z)) : result (dict value) :=
  match raw_prediction with
  | Raise e => Raise e
  | Ok codes =>
      match getitem0 codes with
      | Raise e => Raise e
      | Ok code =>
          Ok [("prediction", Str (assoc_get_default Z.eqb prediction_mapping code "Unknown"))]
      end
  end.

(** A request model whose fields are all declared [float] or [int]: the
    two kinds of the specification's schema.  (A dtype label is a string
    annotation, which pydantic has yet to resolve to a type; [coerce]
    stands for the resolved type only.) *)
Definition numeric_fields (cls : model_class) : Prop :=
  Forall (fun field => snd field = float_ \/ snd field = int_) (model_fields cls).

(** A request object without the keys that are no field of the model. *)
Definition without_extra (cls : model_class) (input : dict value) : dict value :=
  filter (fun entry => existsb (String.eqb (fst entry)) (keys (model_fields cls))) input.

(** The error pydantic reports for a required field that is absent. *)
Definition field_required (name : string) : validation_error :=
  {| err_type := missing; loc := ["body"; name] |}.

(** ** Concrete instances used to run the definitions *)

(** The conversions every pydantic mode agrees on: a value already of the
    declared numeric type is kept as it is.  Anything else is refused here. *)
Definition exact_numbers : FieldValidator :=
  {| coerce := fun annotation v =>
       match annotation, v with
       | float_, Float f => Some (Float f)
       | int_, Int z => Some (Int z)
       | _, _ => None
       end;
     coerce_float := fun _ => eq_refl;
     coerce_int := fun _ => eq_refl |}.

(** The specification's example: three training columns, and a request that
    lists them in another order. *)
Definition example_X : DataFrame :=
  {| dtypes_items :=
       [("revenue", "float64"); ("debt_ratio", "float64"); ("employees", "int64")] |}.

Definition example_request : value :=
  Dict [("employees", Int 50); ("revenue", Float 12.5); ("debt_ratio", Float 0.3)].

Definition example_request_sorted : value :=
  Dict [("revenue", Float 12.5); ("debt_ratio", Float 0.3); ("employees", Int 50)].

Definition example_request_incomplete : value :=
  Dict [("employees", Int 50); ("revenue", Float 12.5)].

Definition example_request_extra : value :=
  Dict [("ticker", Str "ACME"); ("employees", Int 50); ("revenue", Float 12.5);
        ("debt_ratio", Float 0.3); ("year", Int 2018)].

(** A model that answers every frame with one class code. *)
Definition constant_model (code : Z) : Model := fun _ => Ok [code].

(** A raw dataset as OpenML delivers it: floats, small unsigned integers,
    integers. *)
Definition example_dataset : DataFrame :=
  {| dtypes_items :=
       [("Revenue", "float64"); ("Sector", "uint8"); ("Employees", "int64")] |}.

(** A listing with a dtype the table does not know. *)
Definition example_listing : DataFrame :=
  {| dtypes_items := [("Revenue", "float64"); ("Sector", "uint8"); ("Listed", "bool")] |}.

(** The median imputer on a frame of [float64], [int64] and [uint8]
    columns without an all-missing column: one [float64] array, a column per
    input column. *)
Definition median_imputer (X0 : DataFrame) : result ndarray :=
  Ok {| nd_dtype := "float64"; nd_columns := List.length (columns X0) |}.

Definition example_environment (artifact : result (option Model)) : environment :=
  {| get_data := Ok example_dataset;
     fit_transform := median_imputer;
     joblib_load := fun _ => artifact |}.

(** The frame the example environment starts the service with. *)
Definition example_imputed : DataFrame :=
  {| dtypes_items :=
       [("Revenue", "float64"); ("Sector", "float64"); ("Employees", "float64")] |}.

(** numpy's sized floating-point and integer dtypes: the dtype families the
    specification's mapping policy speaks of. *)
Definition float_family (dtype : string) : bool :=
  existsb (String.eqb dtype) ["float16"; "float32"; "float64"].

Definition integer_family (dtype : string) : bool :=
  existsb (String.eqb dtype)
    ["int8"; "int16"; "int32"; "int64"; "uint8"; "uint16"; "uint32"; "uint64"].

(** ** The target encoding of the training script (train.py, lines 20-22, 48) *)

(** Line 22: the categories, in the order that fixes their codes. *)
Definition categories : list string := ["stock_value_decrease"; "stock_value_increase"].

(** A categorical series: a cell is one of the categories or missing (NaN). *)
Definition Series : Type := list (option string).

(** [y.cat.set_categories(new_categories)]: a value that is no new category
    becomes missing. *)
Definition set_categories (new_categories : list string) (y : Series) : Series :=
  map (fun cell =>
         match cell with
         | Some v => if existsb (String.eqb v) new_categories then Some v else None
         | None => None
         end) y.

(** The position of a value among the categories. *)
Fixpoint category_index (cats : list string) (v : string) : option nat :=
  match cats with
  | [] => None
  | c :: rest =>
      if String.eqb c v then Some O
      else match category_index rest v with
           | Some i => Some (S i)
           | None => None
           end
  end.

(** [y.cat.codes]: the position of each cell's category, [-1] for a missing cell. *)
Definition cat_codes (cats : list string) (y : Series) : list Z :=
  map (fun cell =>
         match cell with
         | Some v => match category_index cats v with
                     | Some i => Z.of_nat i
                     | None => (-1)%Z
                     end
         | None => (-1)%Z
         end) y.

(** Lines 22 and 48 on a target column. *)
Definition encode_target (y : Series) : list Z :=
  cat_codes categories (set_categories categories y).

(** predict.py, line 72, on one class code. *)
Definition predicted_label_of (code : Z) : string :=
  assoc_get_default Z.eqb prediction_mapping code "Unknown".

(** ** The artifact on disk (train.py, lines 74-76; predict.py, lines 43-45) *)

(** The working directory: file name to pickled object. *)
Definition directory : Type := dict (option Model).

(** [joblib.dump(obj, filename)] creates or overwrites the file. *)
Definition joblib_dump (obj : option Model) (filename : string) (fs : directory) : directory :=
  set fs filename obj.

(** [joblib.load(filename)] on a directory. *)
Definition joblib_load_from (fs : directory) (filename : string) : result (option Model) :=
  match get fs filename with
  | Some obj => Ok obj
  | None =>
      Raise (FileNotFoundError ("[Errno 2] No such file or directory: '" ++ filename ++ "'"))
  end.

(** train.py, lines 74-76: the file name the pipeline is saved under. *)
Definition train_model_filename : string := "xgboost_model.joblib".

Definition save_pipeline (pipeline : Model) (fs : directory) : directory :=
  joblib_dump (Some pipeline) train_model_filename fs.

(** ** The client script (test_case.py, lines 32-41) *)

(** Python's [random] module over an explicit generator state. *)
Record random_module (S : Type) : Type := mkRandom {
  uniform : float -> float -> S -> float * S;
  randint : Z -> Z -> S -> Z * S
}.
Arguments uniform {S} _ _ _ _.
Arguments randint {S} _ _ _ _.

(** The loop of lines 35-41 over [feature_types.items()]. *)
Fixpoint sample_input_loop {S : Type} (random : random_module S)
    (items : dict python_type) (sample_input : dict value) (st : S) : dict value * S :=
  match items with
  | [] => (sample_input, st)
  | (feature_name, dtype) :: rest =>
      match dtype with
      | float_ =>
          let (u, st') := uniform random 0.01%float 1000.0%float st in
          sample_input_loop random rest (set sample_input feature_name (Float u)) st'
      | int_ =>
          let (n, st') := randint random 0%Z 100%Z st in
          sample_input_loop random rest (set sample_input feature_name (Int n)) st'
      | label _ =>
          sample_input_loop random rest (set sample_input feature_name (Float 0.0)) st
      end
  end.

(** Lines 34-41.  The script serialises the dictionary with [json.dumps]
    and the service decodes it again: floats stay floats and ints stay ints. *)
Definition sample_input {S : Type} (random : random_module S)
    (feature_types_ : dict python_type) (st : S) : dict value :=
  fst (sample_input_loop random feature_types_ [] st).

(** What the client puts under a field of a given type. *)
Definition sample_typed (t : python_type) (v : value) : Prop :=
  match t with
  | float_ => exists u, v = Float u
  | int_ => exists n, v = Int n
  | label _ => v = Float 0.0
  end.

(** ** The readiness wait of the service test (tests/test_service.py) *)

(** [bool(v)] *)
Definition truthy (v : value) : bool :=
  match v with
  | None_ => false
  | Bool b => b
  | Int z => negb (Z.eqb z 0)
  | Float f => negb (PrimFloat.eqb f 0%float)
  | Str s => negb (String.eqb s "")
  | List l => match l with [] => false | _ => true end
  | Dict d => match d with [] => false | _ => true end
  end.

(** [isinstance(v, int)]: [bool] is a subclass of [int]. *)
Definition isinstance_int (v : value) : bool :=
  match v with
  | Int _ | Bool _ => true
  | _ => false
  end.

(** [v > 0] for a [v] that is an [int]. *)
Definition int_gt_0 (v : value) : bool :=
  match v with
  | Int z => Z.ltb 0 z
  | Bool b => b
  | _ => false
  end.

(** [j.get(key)] *)
Definition get_or_None (j : dict value) (key : string) : value :=
  get_default j key None_.

(** The condition of line 25. *)
Definition health_ready (j : dict value) : bool :=
  truthy (get_or_None j "model_loaded")
  && isinstance_int (get_or_None j "n_features")
  && int_gt_0 (get_or_None j "n_features").

(** The three assertions of lines 41-43. *)
Definition health_assertions (j : dict value) : bool :=
  match get_or_None j "status" with Str s => String.eqb s "ok" | _ => false end
  && match get_or_None j "model_loaded" with Bool true => true | _ => false end
  && (isinstance_int (get_or_None j "n_features") && int_gt_0 (get_or_None j "n_features")).

(** One round of the polling loop: [requests.get] raised, or it returned a
    response with a status code, a text and, on demand, its decoded JSON. *)
Inductive poll : Type :=
| get_raised (e : exn)
| answered (status_code : Z) (text : string) (json : result value).

(** What [last_exc] holds. *)
Inductive last_seen : Type :=
| last_exception (e : exn)
| last_response (status_code : Z) (text : string).

Inductive wait_outcome : Type :=
| returned (j : dict value)
| RuntimeError (last_exc : option last_seen).

Definition type_name (v : value) : string :=
  match v with
  | None_ => "NoneType"
  | Bool _ => "bool"
  | Int _ => "int"
  | Float _ => "float"
  | Str _ => "str"
  | List _ => "list"
  | Dict _ => "dict"
  end.

(** Lines 19-31, over the rounds the loop makes before the deadline. *)
Fixpoint wait_loop (polls : list poll) (last_exc : option last_seen) : wait_outcome :=
  match polls with
  | [] => RuntimeError last_exc
  | get_raised e :: rest => wait_loop rest (Some (last_exception e))
  | answered status_code text json :: rest =>
      if Z.eqb status_code 200 then
        match json with
        | Raise e => wait_loop rest (Some (last_exception e))
        | Ok (Dict j) =>
            if health_ready j then returned j
            else wait_loop rest (Some (last_response status_code text))
        | Ok v =>
            wait_loop rest
              (Some (last_exception
                       (AttributeError ("'" ++ type_name v ++ "' object has no attribute 'get'"))))
        end
      else wait_loop rest (Some (last_response status_code text))
  end.

Definition wait_for_health (polls : list poll) : wait_outcome := wait_loop polls None.




(** The service has a model and at least one training column. *)
Definition service_ready (g : globals) : bool :=
  match model g, X g with
  | Some (Some _), Some X_ => negb (Nat.eqb (List.length (columns X_)) 0)
  | _, _ => false
  end.



(** ** More instances to run the definitions *)

(** A dataset whose columns are all [float32], and the median imputer on
    it: scikit-learn keeps a frame that is already single precision. *)
Definition float32_dataset : DataFrame :=
  {| dtypes_items := [("Revenue", "float32"); ("Debt", "float32")] |}.

Definition float32_imputer (X0 : DataFrame) : result ndarray :=
  Ok {| nd_dtype := "float32"; nd_columns := List.length (columns X0) |}.

Definition float32_environment : environment :=
  {| get_data := Ok float32_dataset;
     fit_transform := float32_imputer;
     joblib_load := fun _ => Ok (Some (constant_model 1)) |}.

(** A pipeline that starts with a scaler, as the one train.py fits: the
    scaler refuses a frame with an infinite cell. *)
Definition is_infinite (v : value) : bool :=
  match v with
  | Float f => PrimFloat.eqb (PrimFloat.abs f) PrimFloat.infinity
  | _ => false
  end.

Definition scaled_model (code : Z) : Model :=
  fun df =>
    if existsb is_infinite (values df)
    then Raise (ValueError "Input X contains infinity or a value too large for dtype('float64').")
    else Ok [code].

(** A complete, correctly typed request with an infinite float. *)
Definition example_request_infinite : dict value :=
  [("employees", Int 50); ("revenue", Float PrimFloat.infinity); ("debt_ratio", Float 0.3)].

(** A model that raises an [HTTPException]. *)
Definition raising_model (status_code : Z) (detail : string) : Model :=
  fun _ => Raise (HTTPException status_code detail).

(** A generator whose state counts the draws. *)
Definition counting_random : random_module nat :=
  {| uniform := fun _ _ n => (500.5%float, S n);
     randint := fun _ _ n => (Z.of_nat (Nat.modulo n 101), S n) |}.

(** A frame with a repeated column label. *)
Definition example_repeated : list (string * string) :=
  [("Revenue", "float64"); ("Sector", "uint8"); ("Revenue", "int64")].

(** ** Helper lemmas on dictionaries *)

Lemma get_set_fresh V (d : dict V) k v :
  ~ In k (keys d) -> set d k v = d ++ [(k, v)].
Proof.
  induction d as [|[k' v'] d IH]; simpl; intros Hk.
  - reflexivity.
  - destruct (String.eqb_spec k' k) as [->|Hne].
    + exfalso. apply Hk. now left.
    + f_equal. apply IH. intros Hin. apply Hk. now right.
Qed.

Lemma keys_set V (d : dict V) k v :
  In k (keys d) -> keys (set d k v) = keys d.
Proof.
  induction d as [|[k' v'] d IH]; simpl; intros Hk.
  - contradiction.
  - destruct (String.eqb_spec k' k) as [->|Hne]; simpl.
    + reflexivity.
    + f_equal. apply IH. destruct Hk as [Hk|Hk]; [congruence|exact Hk].
Qed.

Lemma set_values_from V (P : V -> Prop) (d : dict V) k v :
  P v -> Forall P (values d) -> Forall P (values (set d k v)).
Proof.
  intros Hv. induction d as [|[k' v'] d IH]; simpl; intros Hd.
  - constructor; [exact Hv|constructor].
  - inversion Hd as [|? ? Hv' Hd']; subst.
    destruct (String.eqb_spec k' k); simpl; constructor; auto.
Qed.

Lemma in_keys_set V (d : dict V) k v k0 :
  In k0 (keys (set d k v)) <-> k0 = k \/ In k0 (keys d).
Proof.
  induction d as [|[k' v'] d IH]; simpl.
  - intuition congruence.
  - destruct (String.eqb_spec k' k) as [->|Hne]; simpl.
    + intuition congruence.
    + rewrite IH. intuition congruence.
Qed.

(** ** The schema builder *)

Lemma build_feature_types_fold items :
  build_feature_types items = fold_left schema_step items [].
Proof. reflexivity. Qed.

Lemma fold_schema_fresh items : forall acc,
  NoDup (map fst items) ->
  (forall c, In c (map fst items) -> ~ In c (keys acc)) ->
  fold_left schema_step items acc
  = acc ++ map (fun '(c, d) => (c, python_type_of d)) items.
Proof.
  induction items as [|[c d] items IH]; simpl; intros acc Hnd Hfresh.
  - now rewrite app_nil_r.
  - inversion Hnd as [|? ? Hc Hnd']; subst.
    rewrite get_set_fresh by (apply Hfresh; now left).
    rewrite IH; [now rewrite <- app_assoc| exact Hnd' |].
    intros c' Hc' Hin. unfold keys in Hin. rewrite map_app, in_app_iff in Hin.
    destruct Hin as [Hin|[<-|[]]].
    + apply (Hfresh c'); [now right|exact Hin].
    + contradiction.
Qed.

Lemma fold_schema_keys items : forall acc c,
  In c (keys (fold_left schema_step items acc)) <-> In c (keys acc) \/ In c (map fst items).
Proof.
  induction items as [|[c0 d] items IH]; simpl; intros acc c.
  - tauto.
  - rewrite IH. cbn [schema_step]. rewrite in_keys_set. intuition.
Qed.

Lemma wf_set V (d : dict V) k v : wf d -> wf (set d k v).
Proof.
  unfold wf. intros Hd.
  destruct (in_dec string_dec k (keys d)) as [Hin|Hout].
  - now rewrite keys_set.
  - rewrite get_set_fresh by exact Hout. unfold keys. rewrite map_app. simpl.
    induction d as [|[k' v'] d IH]; simpl in *.
    + constructor; [tauto|constructor].
    + inversion Hd as [|? ? Hk Hd']; subst. constructor.
      * rewrite in_app_iff. simpl. intros [H|[H|[]]]; [now apply Hk|].
        apply Hout. now left.
      * apply IH; [exact Hd'|]. intros H. apply Hout. now right.
Qed.

Lemma fold_schema_wf items : forall acc,
  wf acc -> wf (fold_left schema_step items acc).
Proof.
  induction items as [|[c d] items IH]; simpl; intros acc Hacc.
  - exact Hacc.
  - apply IH. now apply wf_set.
Qed.

Lemma fold_schema_values (P : python_type -> Prop) items : forall acc,
  Forall (fun item => P (python_type_of (snd item))) items ->
  Forall P (values acc) ->
  Forall P (values (fold_left schema_step items acc)).
Proof.
  induction items as [|[c d] items IH]; simpl; intros acc Hitems Hacc.
  - exact Hacc.
  - inversion Hitems as [|? ? Hd Hrest]; subst. apply IH; [exact Hrest|].
    now apply set_values_from.
Qed.

Lemma build_feature_types_wf items : wf (build_feature_types items).
Proof. rewrite build_feature_types_fold. apply fold_schema_wf. constructor. Qed.

Lemma build_feature_types_keys items c :
  In c (keys (build_feature_types items)) <-> In c (map fst items).
Proof. rewrite build_feature_types_fold, fold_schema_keys. simpl. tauto. Qed.

Lemma dynamic_fields_copy (ft : dict python_type) :
  map (fun '(name, dtype) => (name, dtype)) ft = ft.
Proof. induction ft as [|[n t] ft IH]; simpl; [reflexivity|now rewrite IH]. Qed.

Lemma python_type_of_unlisted d :
  d <> "float64" -> d <> "int64" -> d <> "uint8" -> python_type_of d = label d.
Proof.
  intros H1 H2 H3.
  unfold python_type_of, get_default, assoc_get_default, dtype_mapping.
  cbn [assoc_get].
  assert (E1 : ("float64" =? d) = false) by (apply String.eqb_neq; congruence).
  assert (E2 : ("int64" =? d) = false) by (apply String.eqb_neq; congruence).
  assert (E3 : ("uint8" =? d) = false) by (apply String.eqb_neq; congruence).
  now rewrite E1, E2, E3.
Qed.

Lemma get_In V (d : dict V) k v : get d k = Some v -> In (k, v) d.
Proof.
  induction d as [|[k' v'] d IH]; simpl; [discriminate|].
  destruct (String.eqb_spec k' k) as [->|Hne]; intros H.
  - left. congruence.
  - right. now apply IH.
Qed.

Lemma keys_get V (d : dict V) k : In k (keys d) -> exists v, get d k = Some v.
Proof.
  induction d as [|[k' v'] d IH]; simpl; [contradiction|].
  destruct (String.eqb_spec k' k) as [->|Hne]; intros H.
  - now exists v'.
  - apply IH. destruct H; [congruence|assumption].
Qed.

Lemma get_keys V (d : dict V) k v : get d k = Some v -> In k (keys d).
Proof. intros H. apply get_In in H. apply (in_map fst) in H. exact H. Qed.

(** The frame the module keeps has the dataset's column labels and, in
    every column, the dtype of the imputer's array. *)
Lemma load_X_spec env X_ :
  load_X env = Ok X_ ->
  exists X0 a,
    get_data env = Ok X0 /\ fit_transform env X0 = Ok a /\
    columns X_ = columns X0 /\
    Forall (fun item => snd item = nd_dtype a) (dtypes_items X_).
Proof.
  unfold load_X, pd_DataFrame. intros H.
  destruct (get_data env) as [X0|e] eqn:Hdata; [|discriminate].
  destruct (fit_transform env X0) as [a|e] eqn:Hfit; [|discriminate].
  destruct (Nat.eqb _ _); [|discriminate].
  inversion H; subst X_; clear H. exists X0, a.
  split; [reflexivity|]. split; [exact Hfit|]. split.
  - unfold columns. cbn [dtypes_items]. rewrite map_map. cbn [fst]. now rewrite map_id.
  - cbn [dtypes_items]. apply Forall_forall. intros [c d] Hin.
    apply in_map_iff in Hin. destruct Hin as (c' & Heq & _). now inversion Heq.
Qed.

Lemma import_module_Ok env g :
  import_module env = Ok g ->
  exists X_ model_, load_X env = Ok X_ /\ g = module_globals X_ model_.
Proof.
  unfold import_module. intros H.
  destruct (load_X env) as [X_|e]; [|discriminate].
  destruct (load_model env) as [m|e]; [|discriminate].
  inversion H. now exists X_, m.
Qed.

(** C8 (as the code has it): the builder's table is exact.  ["float64"]
    gives [float], ["int64"] and ["uint8"] give [int], and every other dtype
    string, whatever its family, is kept as its own label; on a listing with
    distinct column labels the schema is the listing itself, column by
    column and in the listing's order, so two runs on one listing agree. *)
Theorem schema_builder_table_and_order (items : list (string * string)) :
  NoDup (map fst items) ->
  python_type_of "float64" = float_ /\
  python_type_of "int64" = int_ /\
  python_type_of "uint8" = int_ /\
  (forall d, d <> "float64" -> d <> "int64" -> d <> "uint8" ->
             python_type_of d = label d) /\
  build_feature_types items = map (fun '(c, d) => (c, python_type_of d)) items /\
  keys (build_feature_types items) = map fst items.
Proof.
  intros Hnd.
  assert (Hmap : build_feature_types items
                 = map (fun '(c, d) => (c, python_type_of d)) items).
  { unfold build_feature_types. rewrite fold_schema_fresh; auto. }
  repeat split; try reflexivity; auto using python_type_of_unlisted.
  rewrite Hmap. unfold keys. rewrite map_map. apply map_ext. now intros [c d].
Qed.

Lemma schema_builder_table_and_order_witness :
  NoDup (map fst (dtypes_items example_listing)) /\
  build_feature_types (dtypes_items example_listing)
  = [("Revenue", float_); ("Sector", int_); ("Listed", label "bool")].
Proof.
  assert (Hnd : NoDup (map fst (dtypes_items example_listing))).
  { simpl. repeat constructor; simpl; intuition discriminate. }
  split; [exact Hnd|].
  exact (proj1 (proj2 (proj2 (proj2 (proj2
           (schema_builder_table_and_order (dtypes_items example_listing) Hnd)))))).
Defined.

(** C8 (as stated) fails: [float32] is a floating-point dtype and [int32]
    an integer dtype, yet neither is in the table and both are kept as
    labels. *)
Lemma sized_dtypes_kept_as_labels :
  float_family "float32" = true /\
  python_type_of "float32" = label "float32" /\
  python_type_of "float32" <> float_ /\
  integer_family "int32" = true /\
  python_type_of "int32" = label "int32" /\
  python_type_of "int32" <> int_.
Proof. repeat split; try reflexivity; discriminate. Qed.

(** C10 (as the code has it): in the service as started every field of
    the request model has one and the same type, the one the table gives the
    dtype of the imputer's array, whatever the dtypes of the dataset's
    columns were.  When that array is [float64] every field is declared
    [float]: a column that was [int64] or [uint8] in the dataset is a
    [float] field too, and no field is [int] or a label. *)
Theorem request_schema_all_float (env : environment) (g : globals) :
  import_module env = Ok g ->
  exists X0 a,
    get_data env = Ok X0 /\
    fit_transform env X0 = Ok a /\
    keys (feature_types g) = keys (model_fields (InputData g)) /\
    (forall c, In c (columns X0) <-> In c (keys (model_fields (InputData g)))) /\
    Forall (fun field => snd field = python_type_of (nd_dtype a))
           (model_fields (InputData g)) /\
    (nd_dtype a = "float64" ->
     Forall (fun field => snd field = float_) (model_fields (InputData g)) /\
     forall c, In c (columns X0) -> get (model_fields (InputData g)) c = Some float_).
Proof.
  intros Himp.
  destruct (import_module_Ok _ Himp) as (X_ & m & HX & ->).
  destruct (load_X_spec _ HX) as (X0 & a & Hdata & Hfit & Hcols & Hdtypes).
  exists X0, a.
  cbn [module_globals InputData create_model model_fields feature_types].
  rewrite dynamic_fields_copy.
  assert (Hall : Forall (fun t => t = python_type_of (nd_dtype a))
                   (values (build_feature_types (dtypes_items X_)))).
  { apply fold_schema_values; [|constructor].
    eapply Forall_impl; [|exact Hdtypes].
    intros [c d] Hd. simpl in *. now subst d. }
  assert (Hkeys : forall c, In c (columns X0) <->
                            In c (keys (build_feature_types (dtypes_items X_)))).
  { intros c. rewrite <- Hcols. symmetry. apply build_feature_types_keys. }
  assert (Hfields : Forall (fun field => snd field = python_type_of (nd_dtype a))
                      (build_feature_types (dtypes_items X_))).
  { unfold values in Hall. now rewrite Forall_map in Hall. }
  split; [exact Hdata|]. split; [exact Hfit|]. split; [reflexivity|].
  split; [exact Hkeys|]. split; [exact Hfields|].
  intros H64. split.
  - rewrite H64 in Hfields. exact Hfields.
  - intros c Hc. apply Hkeys in Hc.
    destruct (keys_get _ _ Hc) as [t Ht]. rewrite Ht. f_equal.
    apply get_In in Ht. rewrite Forall_forall in Hall.
    rewrite (Hall t); [now rewrite H64|]. unfold values. now apply (in_map snd) in Ht.
Qed.

Lemma request_schema_all_float_witness :
  import_module (example_environment (Ok (Some (constant_model 1))))
  = Ok (module_globals example_imputed (Some (constant_model 1))) /\
  Forall (fun field => snd field = float_)
    (model_fields (InputData (module_globals example_imputed (Some (constant_model 1))))).
Proof.
  split; [reflexivity|].
  destruct (@request_schema_all_float
              (example_environment (Ok (Some (constant_model 1)))) _ eq_refl)
    as (X0 & a & _ & Hfit & _ & _ & _ & H64).
  apply H64. now inversion Hfit.
Defined.

(** C10 (as stated) fails: on a dataset whose columns are all [float32]
    the imputer's array is [float32] too, the table does not list that
    dtype, and every field of the request model is the label "float32",
    not [float]. *)
Lemma float32_schema_is_all_labels :
  import_module float32_environment
  = Ok (module_globals
          {| dtypes_items := [("Revenue", "float32"); ("Debt", "float32")] |}
          (Some (constant_model 1))) /\
  model_fields (InputData (module_globals
          {| dtypes_items := [("Revenue", "float32"); ("Debt", "float32")] |}
          (Some (constant_model 1))))
  = [("Revenue", label "float32"); ("Debt", label "float32")] /\
  ~ Forall (fun field => snd field = float_)
      (model_fields (InputData (module_globals
          {| dtypes_items := [("Revenue", "float32"); ("Debt", "float32")] |}
          (Some (constant_model 1))))).
Proof.
  repeat split; try reflexivity.
  intros H. inversion H as [|? ? Hhead _]. discriminate Hhead.
Qed.

(** ** Lookup in request objects *)

Lemma In_get V (d : dict V) k v : wf d -> In (k, v) d -> get d k = Some v.
Proof.
  unfold wf. induction d as [|[k' v'] d IH]; simpl; intros Hnd Hin; [contradiction|].
  inversion Hnd as [|? ? Hk Hnd']; subst.
  destruct Hin as [Heq|Hin].
  - inversion Heq; subst. now rewrite String.eqb_refl.
  - destruct (String.eqb_spec k' k) as [->|Hne].
    + exfalso. apply Hk. now apply (in_map fst) in Hin.
    + now apply IH.
Qed.

Lemma get_None V (d : dict V) k : get d k = None <-> ~ In k (keys d).
Proof.
  split.
  - intros Hg Hin. destruct (keys_get _ _ Hin) as [v Hv]. congruence.
  - intros Hout. destruct (get d k) as [v|] eqn:Hg; [|reflexivity].
    exfalso. apply Hout. now apply get_keys in Hg.
Qed.

(** With each key held once, lookup does not depend on the order of the entries. *)
Lemma get_Permutation V (d d' : dict V) k :
  wf d -> Permutation d d' -> get d k = get d' k.
Proof.
  intros Hwf Hperm.
  assert (Hwf' : wf d').
  { unfold wf, keys in *. eapply Permutation_NoDup; [|exact Hwf].
    now apply Permutation_map. }
  destruct (get d k) as [v|] eqn:Hg.
  - symmetry. apply In_get; [exact Hwf'|].
    eapply Permutation_in; [exact Hperm|]. now apply get_In.
  - symmetry. apply get_None. apply get_None in Hg. intros Hin. apply Hg.
    unfold keys in *. eapply Permutation_in; [|exact Hin].
    apply Permutation_map. now apply Permutation_sym.
Qed.

Lemma get_filter_keys V (p : string -> bool) (d : dict V) k :
  p k = true -> get (filter (fun entry => p (fst entry)) d) k = get d k.
Proof.
  intros Hp. induction d as [|[k' v'] d IH]; simpl; [reflexivity|].
  destruct (p k') eqn:Hk'; simpl.
  - destruct (String.eqb_spec k' k); [reflexivity|exact IH].
  - destruct (String.eqb_spec k' k) as [->|]; [congruence|exact IH].
Qed.

Lemma existsb_eqb_In k l : In k l -> existsb (String.eqb k) l = true.
Proof.
  intros Hin. apply existsb_exists. exists k. split; [exact Hin|apply String.eqb_refl].
Qed.

(** ** Validation against the request model *)

Section ValidationProperties.
Context {pydantic : FieldValidator}.

(** Validation reads the input only at the names of the declared fields. *)
Lemma validate_fields_ext fields input input' :
  (forall name, In name (keys fields) -> get input name = get input' name) ->
  validate_fields fields input = validate_fields fields input'.
Proof.
  induction fields as [|[name t] fields IH]; simpl; intros Hext; [reflexivity|].
  rewrite IH by (intros n Hn; apply Hext; now right).
  rewrite (Hext name) by now left. reflexivity.
Qed.

Lemma validate_fields_missing fields input name :
  In name (keys fields) -> get input name = None ->
  In (field_required name) (fst (validate_fields fields input)).
Proof.
  induction fields as [|[n t] fields IH]; simpl; intros Hin Hget; [contradiction|].
  destruct (validate_fields fields input) as [errors validated] eqn:Hrest.
  destruct (string_dec n name) as [->|Hne].
  - rewrite Hget. now left.
  - assert (Hrec : In (field_required name) errors).
    { apply IH; [|exact Hget]. destruct Hin; [congruence|assumption]. }
    destruct (get input n) as [v|]; [destruct (coerce t v)|]; simpl; auto.
Qed.

(** What a validation without errors returns: one entry per declared
    field, in declaration order, holding the converted input value. *)
Lemma validate_fields_accepts fields input data :
  validate_fields fields input = ([], data) ->
  Forall2 (fun field entry =>
             fst entry = fst field /\
             exists v, get input (fst field) = Some v /\
                       coerce (snd field) v = Some (snd entry))
          fields data.
Proof.
  revert data. induction fields as [|[name t] fields IH]; simpl; intros data Hv.
  - inversion Hv. constructor.
  - destruct (validate_fields fields input) as [errors validated] eqn:Hrest.
    destruct (get input name) as [v|] eqn:Hget; [|discriminate].
    destruct (coerce t v) as [w|] eqn:Hco; [|discriminate].
    inversion Hv; subst. constructor; [|now apply IH].
    simpl. split; [reflexivity|]. now exists v.
Qed.

Lemma validate_fields_valid fields input :
  (forall name t, In (name, t) fields ->
      exists v w, get input name = Some v /\ coerce t v = Some w) ->
  exists data, validate_fields fields input = ([], data).
Proof.
  induction fields as [|[name t] fields IH]; simpl; intros Hall.
  - now exists [].
  - destruct IH as [data Hdata]; [intros n t' Hin; apply (Hall n t'); now right|].
    destruct (Hall name t) as (v & w & Hget & Hco); [now left|].
    rewrite Hdata, Hget, Hco. now eexists.
Qed.

Lemma validated_keys fields input data :
  validate_fields fields input = ([], data) -> keys data = keys fields.
Proof.
  intros Hv. apply validate_fields_accepts in Hv. unfold keys.
  induction Hv as [|f e fs es [Hk _] _ IH]; simpl; [reflexivity|].
  now rewrite Hk, IH.
Qed.

Lemma model_validate_Dict cls input data :
  model_validate cls (Dict input) = inr data <->
  validate_fields (model_fields cls) input = ([], data).
Proof.
  unfold model_validate.
  destruct (validate_fields (model_fields cls) input) as [[|e errors] validated];
    split; intros H; inversion H; reflexivity.
Qed.

Lemma model_validate_inr cls body data :
  model_validate cls body = inr data ->
  exists input, body = Dict input /\
                validate_fields (model_fields cls) input = ([], data).
Proof.
  destruct body; try discriminate. intros H. eexists. split; [reflexivity|].
  now apply model_validate_Dict.
Qed.
End ValidationProperties.

(** ** Alignment to the training columns *)

Lemma getitem_columns_Ok df labels :
  (forall c, In c labels -> In c (keys df)) ->
  exists row, getitem_columns df labels = Ok row.
Proof.
  induction labels as [|c labels IH]; simpl; intros Hall.
  - now eexists.
  - destruct (keys_get df c) as [v Hv]; [apply Hall; now left|].
    destruct IH as [row Hrow]; [intros c' Hc'; apply Hall; now right|].
    rewrite Hv, Hrow. now eexists.
Qed.

(** The selected frame has the requested labels, in their order, each with
    the cell the source frame holds under that label. *)
Lemma getitem_columns_spec df labels row :
  getitem_columns df labels = Ok row ->
  keys row = labels /\
  Forall (fun cell => get df (fst cell) = Some (snd cell)) row.
Proof.
  revert row. induction labels as [|c labels IH]; simpl; intros row Hrow.
  - inversion Hrow. split; [reflexivity|constructor].
  - destruct (get df c) as [v|] eqn:Hv; [|discriminate].
    destruct (getitem_columns df labels) as [cells|e]; [|discriminate].
    inversion Hrow; subst. destruct (IH cells eq_refl) as [Hk Hc].
    split; [simpl; now rewrite Hk|]. constructor; [exact Hv|exact Hc].
Qed.

Lemma model_fields_module_globals X_ model_ :
  model_fields (InputData (module_globals X_ model_))
  = build_feature_types (dtypes_items X_).
Proof. cbn [module_globals InputData create_model model_fields]. apply dynamic_fields_copy. Qed.

(** The handler on a frame that has every training column. *)
Lemma predict_aligned X_ (m : Model) data row calls :
  getitem_columns data (columns X_) = Ok row ->
  predict (module_globals X_ (Some m)) data calls
  = (prediction_payload (m row), calls ++ [row]).
Proof.
  intros Hrow. unfold predict, bind, lift, pd_DataFrame_records, model_dump.
  cbn [module_globals X model global model_predict]. rewrite Hrow.
  unfold prediction_payload, ret.
  destruct (m row) as [codes|e]; [|reflexivity].
  destruct (getitem0 codes); reflexivity.
Qed.

Section PredictProperties.
Context {pydantic : FieldValidator}.

(** An instance of the request model of the started module has every
    training column. *)
Lemma instance_has_columns X_ model_ body data :
  model_validate (InputData (module_globals X_ model_)) body = inr data ->
  exists row, getitem_columns data (columns X_) = Ok row.
Proof.
  intros Hv. apply model_validate_inr in Hv. destruct Hv as (input & _ & Hv).
  apply getitem_columns_Ok. intros c Hc.
  rewrite (validated_keys _ _ Hv), model_fields_module_globals.
  now apply build_feature_types_keys.
Qed.

Lemma post_predict_validated X_ (m : Model) body data row calls :
  model_validate (InputData (module_globals X_ (Some m))) body = inr data ->
  getitem_columns data (columns X_) = Ok row ->
  post_predict (module_globals X_ (Some m)) body calls
  = (respond (prediction_payload (m row)), calls ++ [row]).
Proof.
  intros Hv Hrow. unfold post_predict. rewrite Hv.
  now rewrite (predict_aligned _ _ _ _ Hrow).
Qed.

(** C1: the row handed to the model lists the training columns in their
    order, each with the validated record's value of that name, whatever
    the order of the request's keys; the specification's example request
    reaches the model as [12.5, 0.3, 50]. *)
Theorem predict_aligns_to_training_columns
    (X_ : DataFrame) (m : Model) (body : value) (data : dict value)
    (calls : list row_frame) :
  model_validate (InputData (module_globals X_ (Some m))) body = inr data ->
  (exists row,
      keys row = columns X_ /\
      Forall (fun cell => get data (fst cell) = Some (snd cell)) row /\
      post_predict (module_globals X_ (Some m)) body calls
      = (respond (prediction_payload (m row)), calls ++ [row])) /\
  post_predict (module_globals example_X (Some m)) example_request calls
  = (respond (prediction_payload
       (m [("revenue", Float 12.5); ("debt_ratio", Float 0.3); ("employees", Int 50)])),
     calls ++ [[("revenue", Float 12.5); ("debt_ratio", Float 0.3); ("employees", Int 50)]]).
Proof.
  intros Hv. split.
  - destruct (instance_has_columns _ _ _ Hv) as [row Hrow].
    exists row. destruct (getitem_columns_spec _ _ Hrow) as [Hk Hc].
    repeat split; [exact Hk|exact Hc|].
    now apply post_predict_validated with (data := data).
  - apply post_predict_validated
      with (data := [("revenue", Float 12.5); ("debt_ratio", Float 0.3);
                     ("employees", Int 50)]); [|reflexivity].
    apply model_validate_Dict. rewrite model_fields_module_globals.
    cbn. now rewrite !coerce_float, coerce_int.
Qed.
End PredictProperties.

Lemma predict_aligns_to_training_columns_witness :
  model_validate (pydantic := exact_numbers)
    (InputData (module_globals example_X (Some (constant_model 1)))) example_request
  = inr [("revenue", Float 12.5); ("debt_ratio", Float 0.3); ("employees", Int 50)] /\
  post_predict (pydantic := exact_numbers)
    (module_globals example_X (Some (constant_model 1))) example_request []
  = (OK_200 [("prediction", Str "stock_value_increase")],
     [[("revenue", Float 12.5); ("debt_ratio", Float 0.3); ("employees", Int 50)]]).
Proof.
  split; [reflexivity|].
  exact (proj2 (@predict_aligns_to_training_columns exact_numbers example_X
                  (constant_model 1) example_request
                  [("revenue", Float 12.5); ("debt_ratio", Float 0.3); ("employees", Int 50)]
                  [] eq_refl)).
Defined.

Section RequestProperties.
Context {pydantic : FieldValidator}.

Lemma post_predict_ext g input input' calls :
  (forall name, In name (keys (model_fields (InputData g))) ->
                get input name = get input' name) ->
  post_predict g (Dict input) calls = post_predict g (Dict input') calls.
Proof.
  intros Hext. unfold post_predict, model_validate.
  now rewrite (validate_fields_ext _ _ _ Hext).
Qed.

(** C2: two request objects with the same entries in different key orders
    get the same response, and the model sees the same frame. *)
Theorem predict_key_order_invariant
    (g : globals) (input input' : dict value) (calls : list row_frame) :
  wf input ->
  Permutation input input' ->
  post_predict g (Dict input) calls = post_predict g (Dict input') calls.
Proof.
  intros Hwf Hperm. apply post_predict_ext.
  intros name _. now apply get_Permutation.
Qed.

(** C3: on a request model of [float] and [int] fields, a request object
    that lacks a field of the model is answered 422 with a [missing] error
    located at that field, and the record of model invocations is
    unchanged. *)
Theorem predict_rejects_missing_field
    (g : globals) (input : dict value) (name : string) (calls : list row_frame) :
  numeric_fields (InputData g) ->
  In name (keys (model_fields (InputData g))) ->
  get input name = None ->
  exists errors,
    post_predict g (Dict input) calls = (Unprocessable_422 errors, calls) /\
    In (field_required name) errors.
Proof.
  intros _ Hfield Habsent.
  pose proof (validate_fields_missing _ _ _ Hfield Habsent) as Hin.
  unfold post_predict, model_validate.
  destruct (validate_fields (model_fields (InputData g)) input) as [errors validated].
  simpl in Hin. destruct errors as [|e errors]; [contradiction|].
  exists (e :: errors). split; [reflexivity|exact Hin].
Qed.

(** Keys of the request that are no field of the model are not read. *)
Lemma post_predict_without_extra g input calls :
  post_predict g (Dict input) calls
  = post_predict g (Dict (without_extra (InputData g) input)) calls.
Proof.
  apply post_predict_ext. intros name Hin. unfold without_extra. symmetry.
  apply (get_filter_keys
           (fun k => existsb (String.eqb k) (keys (model_fields (InputData g))))).
  now apply existsb_eqb_In.
Qed.

Lemma respond_not_422 r errors : respond r <> Unprocessable_422 errors.
Proof. destruct r as [content|e]; [discriminate|destruct e; discriminate]. Qed.

(** C9: a request object that holds a convertible value for every field
    of the request model is not rejected for carrying other keys too: it
    is never answered 422, the instance and the frame given to the model
    hold the model's fields only, and response and model invocation are
    those of the request without the extra keys. *)
Theorem predict_ignores_extra_fields
    (X_ : DataFrame) (m : Model) (input : dict value) (calls : list row_frame) :
  let g := module_globals X_ (Some m) in
  numeric_fields (InputData g) ->
  (forall name t, In (name, t) (model_fields (InputData g)) ->
      exists v w, get input name = Some v /\ coerce t v = Some w) ->
  exists data row,
    model_validate (InputData g) (Dict input) = inr data /\
    model_validate (InputData g) (Dict (without_extra (InputData g) input)) = inr data /\
    keys data = keys (model_fields (InputData g)) /\
    keys row = columns X_ /\
    Forall (fun cell => get data (fst cell) = Some (snd cell)) row /\
    post_predict g (Dict input) calls
    = (respond (prediction_payload (m row)), calls ++ [row]) /\
    post_predict g (Dict (without_extra (InputData g) input)) calls
    = post_predict g (Dict input) calls /\
    (forall errors, fst (post_predict g (Dict input) calls) <> Unprocessable_422 errors).
Proof.
  intros g _ Hvalid.
  destruct (validate_fields_valid _ _ Hvalid) as [data Hdata].
  pose proof (validated_keys _ _ Hdata) as Hkeys.
  apply model_validate_Dict in Hdata.
  destruct (instance_has_columns _ _ _ Hdata) as [row Hrow].
  destruct (getitem_columns_spec _ _ Hrow) as [Hk Hc].
  pose proof (post_predict_validated _ _ _ calls Hdata Hrow) as Hpost.
  pose proof (post_predict_without_extra g input calls) as Hsame.
  exists data, row. repeat split; auto.
  - assert (Hv : forall d, model_validate (InputData g) (Dict input) = d ->
                           model_validate (InputData g)
                             (Dict (without_extra (InputData g) input)) = d).
    { intros d <-. unfold model_validate.
      rewrite (validate_fields_ext (model_fields (InputData g))
                 (without_extra (InputData g) input) input); [reflexivity|].
      intros name Hin. unfold without_extra.
      apply (get_filter_keys
               (fun k => existsb (String.eqb k) (keys (model_fields (InputData g))))).
      now apply existsb_eqb_In. }
    now apply Hv.
  - intros errors. fold g in Hpost. rewrite Hpost. cbn [fst]. apply respond_not_422.
Qed.

(** C4: the class code is resolved through the two-entry table, and any
    other code gives a 200 response with the label "Unknown". *)
Theorem prediction_label_mapping
    (X_ : DataFrame) (m : Model) (body : value) (data : dict value)
    (row : row_frame) (code : Z) (rest : list Z) (calls : list row_frame) :
  model_validate (InputData (module_globals X_ (Some m))) body = inr data ->
  getitem_columns data (columns X_) = Ok row ->
  m row = Ok (code :: rest) ->
  let rsp := fst (post_predict (module_globals X_ (Some m)) body calls) in
  prediction_mapping = [(0%Z, "stock_value_decrease"); (1%Z, "stock_value_increase")] /\
  (code = 0%Z -> rsp = OK_200 [("prediction", Str "stock_value_decrease")]) /\
  (code = 1%Z -> rsp = OK_200 [("prediction", Str "stock_value_increase")]) /\
  (code <> 0%Z -> code <> 1%Z -> rsp = OK_200 [("prediction", Str "Unknown")]).
Proof.
  intros Hv Hrow Hm rsp. subst rsp.
  rewrite (post_predict_validated _ _ _ _ Hv Hrow), Hm.
  cbn [fst prediction_payload getitem0 respond].
  split; [reflexivity|]. repeat split.
  - now intros ->.
  - now intros ->.
  - intros H0 H1. unfold assoc_get_default, prediction_mapping. cbn [assoc_get].
    apply Z.eqb_neq in H0, H1. rewrite Z.eqb_sym in H0. rewrite Z.eqb_sym in H1.
    now rewrite H0, H1.
Qed.

(** C5 (as the code has it): on a request model of [float] and [int]
    fields, a request object with a convertible value for every field gets
    a 200 response whose label is one of the three, provided the loaded
    model answers the frame this request is aligned to with at least one
    class code.  The handler does not catch what the model raises. *)
Theorem predict_total_on_valid_records
    (X_ : DataFrame) (m : Model) (input : dict value) (calls : list row_frame) :
  numeric_fields (InputData (module_globals X_ (Some m))) ->
  (forall name t, In (name, t) (model_fields (InputData (module_globals X_ (Some m)))) ->
      exists v w, get input name = Some v /\ coerce t v = Some w) ->
  (forall data row,
      model_validate (InputData (module_globals X_ (Some m))) (Dict input) = inr data ->
      getitem_columns data (columns X_) = Ok row ->
      exists code rest, m row = Ok (code :: rest)) ->
  exists predicted_label,
    fst (post_predict (module_globals X_ (Some m)) (Dict input) calls)
    = OK_200 [("prediction", Str predicted_label)] /\
    In predicted_label ["stock_value_decrease"; "stock_value_increase"; "Unknown"].
Proof.
  intros _ Hvalid Hmodel.
  destruct (validate_fields_valid _ _ Hvalid) as [data Hdata].
  apply model_validate_Dict in Hdata.
  destruct (instance_has_columns _ _ _ Hdata) as [row Hrow].
  destruct (Hmodel data row Hdata Hrow) as (code & rest & Hm).
  rewrite (post_predict_validated _ _ _ _ Hdata Hrow), Hm.
  cbn [fst prediction_payload getitem0 respond].
  eexists. split; [reflexivity|].
  unfold assoc_get_default, prediction_mapping. cbn [assoc_get].
  destruct (0 =? code)%Z; [simpl; tauto|].
  destruct (1 =? code)%Z; simpl; tauto.
Qed.
End RequestProperties.

Lemma predict_key_order_invariant_witness :
  post_predict (pydantic := exact_numbers)
    (module_globals example_X (Some (constant_model 0))) example_request []
  = post_predict (pydantic := exact_numbers)
      (module_globals example_X (Some (constant_model 0))) example_request_sorted [].
Proof.
  apply (@predict_key_order_invariant exact_numbers
           (module_globals example_X (Some (constant_model 0)))
           [("employees", Int 50); ("revenue", Float 12.5); ("debt_ratio", Float 0.3)]
           [("revenue", Float 12.5); ("debt_ratio", Float 0.3); ("employees", Int 50)]).
  - unfold wf. simpl. repeat constructor; simpl; intuition discriminate.
  - apply (Permutation_cons_append
             [("revenue", Float 12.5); ("debt_ratio", Float 0.3)] ("employees", Int 50)).
Defined.

Lemma example_X_numeric_fields (m : option Model) :
  numeric_fields (InputData (module_globals example_X m)).
Proof. unfold numeric_fields. simpl. repeat constructor; simpl; tauto. Qed.

Lemma predict_rejects_missing_field_witness :
  exists errors,
    post_predict (pydantic := exact_numbers)
      (module_globals example_X (Some (constant_model 0))) example_request_incomplete []
    = (Unprocessable_422 errors, []) /\
    In (field_required "debt_ratio") errors.
Proof.
  apply (@predict_rejects_missing_field exact_numbers
           (module_globals example_X (Some (constant_model 0)))
           [("employees", Int 50); ("revenue", Float 12.5)] "debt_ratio" []).
  - apply example_X_numeric_fields.
  - simpl. tauto.
  - reflexivity.
Defined.

Lemma predict_ignores_extra_fields_witness :
  exists data row,
    model_validate (pydantic := exact_numbers)
      (InputData (module_globals example_X (Some (constant_model 1)))) example_request_extra
    = inr data /\
    keys data = ["revenue"; "debt_ratio"; "employees"] /\
    keys row = columns example_X /\
    post_predict (pydantic := exact_numbers)
      (module_globals example_X (Some (constant_model 1))) example_request_extra []
    = (OK_200 [("prediction", Str "stock_value_increase")], [] ++ [row]).
Proof.
  destruct (@predict_ignores_extra_fields exact_numbers example_X (constant_model 1)
              [("ticker", Str "ACME"); ("employees", Int 50); ("revenue", Float 12.5);
               ("debt_ratio", Float 0.3); ("year", Int 2018)] []
              (example_X_numeric_fields _))
    as (data & row & Hv & _ & Hkeys & Hk & _ & Hpost & _).
  - intros name t Hin. simpl in Hin.
    destruct Hin as [H|[H|[H|[]]]]; inversion H; subst; do 2 eexists; split; reflexivity.
  - exists data, row. repeat split; [exact Hv|exact Hkeys|exact Hk|exact Hpost].
Defined.

Lemma prediction_label_mapping_witness :
  fst (post_predict (pydantic := exact_numbers)
         (module_globals example_X (Some (constant_model 2))) example_request [])
  = OK_200 [("prediction", Str "Unknown")].
Proof.
  refine (proj2 (proj2 (proj2
            (@prediction_label_mapping exact_numbers example_X (constant_model 2)
               example_request
               [("revenue", Float 12.5); ("debt_ratio", Float 0.3); ("employees", Int 50)]
               [("revenue", Float 12.5); ("debt_ratio", Float 0.3); ("employees", Int 50)]
               2%Z [] [] eq_refl eq_refl eq_refl))) _ _); discriminate.
Defined.

Lemma predict_total_on_valid_records_witness :
  exists predicted_label,
    fst (post_predict (pydantic := exact_numbers)
           (module_globals example_X (Some (constant_model 0))) example_request [])
    = OK_200 [("prediction", Str predicted_label)] /\
    In predicted_label ["stock_value_decrease"; "stock_value_increase"; "Unknown"].
Proof.
  apply (@predict_total_on_valid_records exact_numbers example_X (constant_model 0)
           [("employees", Int 50); ("revenue", Float 12.5); ("debt_ratio", Float 0.3)] []).
  - apply example_X_numeric_fields.
  - intros name t Hin. simpl in Hin.
    destruct Hin as [H|[H|[H|[]]]]; inversion H; subst; do 2 eexists; split; reflexivity.
  - intros data row _ _. now exists 0%Z, [].
Defined.

(** C5 (as stated) fails: a request with a correctly typed value for
    every field, one of them an infinite float, is accepted by validation
    and handed to the model; the pipeline's scaler raises on it and the
    handler lets the exception through, so the request ends in a 500. *)
Lemma valid_record_with_infinity_raises :
  (forall name t,
      In (name, t) (model_fields (InputData (module_globals example_X (Some (scaled_model 1))))) ->
      exists v, get example_request_infinite name = Some v /\
                coerce (FieldValidator := exact_numbers) t v = Some v) /\
  post_predict (pydantic := exact_numbers)
    (module_globals example_X (Some (scaled_model 1))) (Dict example_request_infinite) []
  = (Internal_500
       (ValueError "Input X contains infinity or a value too large for dtype('float64')."),
     [[("revenue", Float PrimFloat.infinity); ("debt_ratio", Float 0.3);
       ("employees", Int 50)]]).
Proof.
  split.
  - intros name t Hin. simpl in Hin.
    destruct Hin as [H|[H|[H|[]]]]; inversion H; subst; eexists; split; reflexivity.
  - vm_compute. reflexivity.
Qed.

(** ** Start-up and health *)

Section StartupProperties.
Context {pydantic : FieldValidator}.

(** C6: when [joblib.load] raises, the import of the module raises an
    [HTTPException] whose detail says which failure it was: a missing file
    and any other failure give different messages; the process ends with
    it and answers no request. *)
Theorem model_load_failure_is_fatal
    (env : environment) (X_ : DataFrame) (e : exn) (rqs : list request) :
  load_X env = Ok X_ ->
  joblib_load env model_filename = Raise e ->
  let not_found := "Model file 'xgboost_model.joblib' not found." in
  let load_error := ("Error loading model: " ++ str_of_exn e)%string in
  not_found <> load_error /\
  serve env rqs
  = {| startup_error :=
         Some (HTTPException 500
                 match e with
                 | FileNotFoundError _ => not_found
                 | _ => load_error
                 end);
       responses := [];
       invocations := [] |}.
Proof.
  intros Hdata Hload not_found load_error. split.
  - subst not_found load_error. simpl. discriminate.
  - unfold serve, import_module, load_model. rewrite Hdata, Hload.
    destruct e; reflexivity.
Qed.

(** C7: [health] reads nothing but the module's globals and never raises:
    the payload always has the three keys, [model_loaded] is true exactly
    for a model bound to something other than [None], and [n_features] is
    the number of training columns, or [None] when [X] is not bound. *)
Theorem health_never_raises (g : globals) :
  exists (model_loaded : bool) (n_features : value),
    health g = Ok [("status", Str "ok");
                   ("model_loaded", Bool model_loaded);
                   ("n_features", n_features)] /\
    get_health g = OK_200 [("status", Str "ok");
                           ("model_loaded", Bool model_loaded);
                           ("n_features", n_features)] /\
    (model g = None \/ model g = Some None -> model_loaded = false) /\
    (forall m, model g = Some (Some m) -> model_loaded = true) /\
    (forall X_, X g = Some X_ ->
                n_features = Int (Z.of_nat (List.length (columns X_)))) /\
    (X g = None -> n_features = None_).
Proof.
  unfold get_health, health.
  destruct g as [[X_|] ft cls [[m|]|]]; cbn [X model global respond];
    do 2 eexists; (split; [reflexivity|]); (split; [reflexivity|]);
    repeat split; try congruence; intros; intuition congruence.
Qed.
End StartupProperties.

Lemma model_load_failure_is_fatal_witness :
  serve (pydantic := exact_numbers) (example_environment (Raise (FileNotFoundError "No such file or directory")))
        [GET_health; POST_predict example_request]
  = {| startup_error :=
         Some (HTTPException 500 "Model file 'xgboost_model.joblib' not found.");
       responses := []; invocations := [] |} /\
  serve (pydantic := exact_numbers) (example_environment (Raise (Exception "invalid load key")))
        [GET_health; POST_predict example_request]
  = {| startup_error :=
         Some (HTTPException 500 "Error loading model: invalid load key");
       responses := []; invocations := [] |}.
Proof.
  split.
  - exact (proj2 (@model_load_failure_is_fatal exact_numbers
                    (example_environment (Raise (FileNotFoundError "No such file or directory")))
                    example_imputed (FileNotFoundError "No such file or directory")
                    [GET_health; POST_predict example_request]
                    eq_refl eq_refl)).
  - exact (proj2 (@model_load_failure_is_fatal exact_numbers
                    (example_environment (Raise (Exception "invalid load key")))
                    example_imputed (Exception "invalid load key")
                    [GET_health; POST_predict example_request] eq_refl eq_refl)).
Defined.

(** ** The definitions at work *)

Example health_of_started_service :
  get_health (module_globals example_imputed (Some (constant_model 1)))
  = OK_200 [("status", Str "ok"); ("model_loaded", Bool true); ("n_features", Int 3)].
Proof. reflexivity. Qed.

Example health_without_model :
  health {| X := None; feature_types := []; InputData := create_model "InputData" [];
            model := None |}
  = Ok [("status", Str "ok"); ("model_loaded", Bool false); ("n_features", None_)].
Proof. reflexivity. Qed.

Example extra_keys_are_dropped :
  post_predict (pydantic := exact_numbers)
    (module_globals example_X (Some (constant_model 1))) example_request_extra []
  = (OK_200 [("prediction", Str "stock_value_increase")],
     [[("revenue", Float 12.5); ("debt_ratio", Float 0.3); ("employees", Int 50)]]).
Proof. reflexivity. Qed.

Example missing_field_is_reported :
  post_predict (pydantic := exact_numbers)
    (module_globals example_X (Some (constant_model 1))) example_request_incomplete []
  = (Unprocessable_422 [field_required "debt_ratio"], []).
Proof. reflexivity. Qed.

Example started_service_serves :
  serve (pydantic := exact_numbers)
    (example_environment (Ok (Some (constant_model 0))))
    [GET_health;
     POST_predict (Dict [("Employees", Float 12); ("Sector", Float 3); ("Revenue", Float 1.5)])]
  = {| startup_error := None;
       responses :=
         [OK_200 [("status", Str "ok"); ("model_loaded", Bool true); ("n_features", Int 3)];
          OK_200 [("prediction", Str "stock_value_decrease")]];
       invocations := [[("Revenue", Float 1.5); ("Sector", Float 3); ("Employees", Float 12)]] |}.
Proof. reflexivity. Qed.

(** ** Further properties: dictionaries and the schema builder *)

Lemma get_set V (d : dict V) k v k' :
  get (set d k v) k' = if String.eqb k k' then Some v else get d k'.
Proof.
  induction d as [|[k0 v0] d IH]; simpl.
  - reflexivity.
  - destruct (String.eqb_spec k0 k) as [->|Hne]; simpl.
    + destruct (String.eqb_spec k k'); reflexivity.
    + rewrite IH. destruct (String.eqb_spec k0 k') as [->|Hne'].
      * destruct (String.eqb_spec k k'); [congruence|reflexivity].
      * reflexivity.
Qed.

Lemma get_app V (d d' : dict V) k :
  get (d ++ d') k = match get d k with Some v => Some v | None => get d' k end.
Proof.
  induction d as [|[k0 v0] d IH]; simpl; [reflexivity|].
  destruct (String.eqb k0 k); [reflexivity|exact IH].
Qed.

Lemma length_set V (d : dict V) k v :
  (List.length (set d k v) <= S (List.length d))%nat.
Proof.
  induction d as [|[k0 v0] d IH]; simpl.
  - apply le_n.
  - destruct (String.eqb k0 k); simpl.
    + apply le_S, le_n.
    + apply le_n_S, IH.
Qed.

Lemma fold_schema_get items : forall acc c,
  get (fold_left schema_step items acc) c
  = match get (rev items) c with
    | Some dtype => Some (python_type_of dtype)
    | None => get acc c
    end.
Proof.
  induction items as [|[c0 d0] items IH]; intros acc c; simpl.
  - reflexivity.
  - rewrite IH, get_app. destruct (get (rev items) c); [reflexivity|].
    rewrite get_set. simpl. destruct (String.eqb c0 c); reflexivity.
Qed.

Lemma fold_schema_length items : forall acc,
  (List.length (fold_left schema_step items acc) <= List.length acc + List.length items)%nat.
Proof.
  induction items as [|[c d] items IH]; intros acc; simpl.
  - rewrite Nat.add_0_r. apply le_n.
  - eapply Nat.le_trans; [apply IH|].
    rewrite <- Nat.add_succ_comm. apply Nat.add_le_mono_r. apply length_set.
Qed.

(** X5: a column label listed more than once gives one field: the schema holds
    every label once, and its type is the one of the label's last dtype. *)
Theorem schema_of_repeated_labels (items : list (string * string)) :
  wf (build_feature_types items) /\
  (forall c, In c (keys (build_feature_types items)) <-> In c (map fst items)) /\
  (forall c, get (build_feature_types items) c
             = option_map python_type_of (get (rev items) c)).
Proof.
  split; [apply build_feature_types_wf|]. split.
  - intros c. apply build_feature_types_keys.
  - intros c. unfold build_feature_types. rewrite fold_schema_get.
    destruct (get (rev items) c); reflexivity.
Qed.

Example schema_of_repeated_labels_run :
  build_feature_types example_repeated = [("Revenue", int_); ("Sector", int_)].
Proof. reflexivity. Qed.

(** ** Further properties: the target encoding and the artifact *)

Lemma encode_decode_cell (cell : option string) :
  map predicted_label_of (encode_target [cell])
  = [match cell with
     | Some v => if existsb (String.eqb v) categories then v else "Unknown"
     | None => "Unknown"
     end].
Proof.
  destruct cell as [v|]; [|reflexivity].
  unfold encode_target, set_categories, categories. cbn [map existsb].
  destruct (String.eqb_spec v "stock_value_decrease") as [->|H0]; [reflexivity|].
  destruct (String.eqb_spec v "stock_value_increase") as [->|H1]; reflexivity.
Qed.

(** X1: the label table of the service inverts the class codes of the training
    script: a target value that is one of the two categories is encoded to
    a code that [/predict] resolves to that value again, any other value
    (or a missing one) is encoded to a code that resolves to "Unknown", and
    a code that resolves to a label is the code of that label. *)
Theorem target_encoding_round_trip (y : Series) :
  map predicted_label_of (encode_target y)
  = map (fun cell =>
           match cell with
           | Some v => if existsb (String.eqb v) categories then v else "Unknown"
           | None => "Unknown"
           end) y /\
  (forall code, predicted_label_of code <> "Unknown" ->
                encode_target [Some (predicted_label_of code)] = [code]).
Proof.
  split.
  - induction y as [|cell y IH]; [reflexivity|].
    change (encode_target (cell :: y)) with (encode_target [cell] ++ encode_target y).
    rewrite map_app, IH, encode_decode_cell. reflexivity.
  - intros code. unfold predicted_label_of, assoc_get_default, prediction_mapping.
    cbn [assoc_get].
    destruct (Z.eqb_spec 0 code) as [<-|H0]; [reflexivity|].
    destruct (Z.eqb_spec 1 code) as [<-|H1]; [reflexivity|].
    intros H. now contradiction H.
Qed.

(** X2: the service loads the file the training script writes: after the
    pipeline is saved, whatever the directory held, [load_model] returns
    that pipeline; in a directory without the file it raises the 500
    "not found" exception. *)
Theorem saved_pipeline_is_loaded
    (fs : directory) (pipeline : Model)
    (dataset : result DataFrame) (imputer : DataFrame -> result ndarray) :
  load_model {| get_data := dataset; fit_transform := imputer;
                joblib_load := joblib_load_from (save_pipeline pipeline fs) |}
  = Ok (Some pipeline) /\
  (get fs model_filename = None ->
   load_model {| get_data := dataset; fit_transform := imputer;
                 joblib_load := joblib_load_from fs |}
   = Raise (HTTPException 500 "Model file 'xgboost_model.joblib' not found.")).
Proof.
  split.
  - unfold load_model, joblib_load_from, save_pipeline, joblib_dump.
    cbn [joblib_load]. rewrite get_set.
    unfold train_model_filename, model_filename. now rewrite String.eqb_refl.
  - intros Hnone. unfold load_model, joblib_load_from. cbn [joblib_load].
    now rewrite Hnone.
Qed.

(** ** Further properties: validation, and the client's sample request *)

Section AcceptanceProperties.
Context {pydantic : FieldValidator}.

(** X4: a request object is accepted exactly when every field of the request
    model is present with a value pydantic converts to the field's type: no
    field is optional and none has a default. *)
Theorem request_accepted_iff (cls : model_class) (input : dict value) :
  (exists data, model_validate cls (Dict input) = inr data) <->
  (forall name t, In (name, t) (model_fields cls) ->
      exists v w, get input name = Some v /\ coerce t v = Some w).
Proof.
  split.
  - intros [data Hv] name t Hin. apply model_validate_Dict in Hv.
    apply validate_fields_accepts in Hv.
    induction Hv as [|field entry fields entries [_ (v & Hget & Hco)] _ IH].
    + contradiction.
    + destruct Hin as [->|Hin]; [|now apply IH].
      simpl in *. now exists v, (snd entry).
  - intros Hall. destruct (validate_fields_valid _ _ Hall) as [data Hdata].
    exists data. now apply model_validate_Dict.
Qed.

(** An input that already is an instance validates to itself: one entry
    per field, in field order, each value kept by the conversion. *)
Lemma validate_fields_instance fields : forall entries,
  NoDup (keys fields) ->
  Forall2 (fun field entry =>
             fst entry = fst field /\ coerce (snd field) (snd entry) = Some (snd entry))
          fields entries ->
  validate_fields fields entries = ([], entries).
Proof.
  induction fields as [|[name t] fields IH]; intros entries Hnd Hall.
  - inversion Hall. reflexivity.
  - inversion Hall as [|? [n v] ? entries' [Hn Hco] Hrest]; subst.
    inversion Hnd as [|? ? Hfresh Hnd']; subst. simpl in Hn, Hco. subst n.
    cbn [validate_fields].
    rewrite (validate_fields_ext fields ((name, v) :: entries') entries').
    + rewrite (IH entries' Hnd' Hrest). cbn [get assoc_get].
      unfold get. cbn [assoc_get]. rewrite String.eqb_refl, Hco. reflexivity.
    + intros k Hk. unfold get. cbn [assoc_get].
      destruct (String.eqb_spec name k) as [->|]; [contradiction|reflexivity].
Qed.
End AcceptanceProperties.

Lemma sample_input_loop_spec S (random : random_module S) items : forall acc st,
  NoDup (keys items) ->
  (forall k, In k (keys items) -> ~ In k (keys acc)) ->
  exists entries,
    fst (sample_input_loop random items acc st) = acc ++ entries /\
    Forall2 (fun field entry =>
               fst entry = fst field /\ sample_typed (snd field) (snd entry))
            items entries.
Proof.
  induction items as [|[name t] items IH]; intros acc st Hnd Hfresh.
  - exists []. split; [simpl; now rewrite app_nil_r|constructor].
  - inversion Hnd as [|? ? Hname Hnd']; subst.
    assert (Hstep : forall v, forall k, In k (keys items) -> ~ In k (keys (set acc name v))).
    { intros v k Hk Hin. apply in_keys_set in Hin. destruct Hin as [->|Hin].
      - contradiction.
      - apply (Hfresh k); [now right|exact Hin]. }
    assert (Hset : forall v, set acc name v = acc ++ [(name, v)]).
    { intros v. apply get_set_fresh. apply Hfresh. now left. }
    cbn [sample_input_loop]. destruct t as [| |dtype].
    + destruct (uniform random 0.01%float 1000.0%float st) as [u st'].
      destruct (IH (set acc name (Float u)) st' Hnd' (Hstep _)) as (entries & Heq & Hall).
      exists ((name, Float u) :: entries). split.
      * rewrite Heq, Hset, <- app_assoc. reflexivity.
      * constructor; [|exact Hall]. split; [reflexivity|]. now exists u.
    + destruct (randint random 0%Z 100%Z st) as [n st'].
      destruct (IH (set acc name (Int n)) st' Hnd' (Hstep _)) as (entries & Heq & Hall).
      exists ((name, Int n) :: entries). split.
      * rewrite Heq, Hset, <- app_assoc. reflexivity.
      * constructor; [|exact Hall]. split; [reflexivity|]. now exists n.
    + destruct (IH (set acc name (Float 0.0)) st Hnd' (Hstep _)) as (entries & Heq & Hall).
      exists ((name, Float 0.0) :: entries). split.
      * rewrite Heq, Hset, <- app_assoc. reflexivity.
      * constructor; [|exact Hall]. split; reflexivity.
Qed.

Lemma listed_dtype_is_numeric dtype :
  In dtype ["float64"; "int64"; "uint8"] ->
  python_type_of dtype = float_ \/ python_type_of dtype = int_.
Proof.
  intros [<-|[<-|[<-|[]]]]; [left|right|right]; reflexivity.
Qed.

Section ClientProperties.
Context {pydantic : FieldValidator}.

(** X3: the sample request of the client script has exactly the fields of the
    request model, in their order, and for a dataset whose dtypes are all in
    the table the service accepts it as it is: the request is never answered
    422, the model is invoked once on the sample's values in training
    column order, and the response is the model's answer. *)
Theorem sample_request_is_accepted
    (S : Type) (random : random_module S) (st : S)
    (X_ : DataFrame) (m : Model) (calls : list row_frame) :
  Forall (fun item => In (snd item) ["float64"; "int64"; "uint8"]) (dtypes_items X_) ->
  let sample := sample_input random (build_feature_types (dtypes_items X_)) st in
  keys sample = keys (model_fields (InputData (module_globals X_ (Some m)))) /\
  model_validate (InputData (module_globals X_ (Some m))) (Dict sample) = inr sample /\
  exists row,
    keys row = columns X_ /\
    Forall (fun cell => get sample (fst cell) = Some (snd cell)) row /\
    post_predict (module_globals X_ (Some m)) (Dict sample) calls
    = (respond (prediction_payload (m row)), calls ++ [row]).
Proof.
  intros Hlisted sample.
  pose proof (build_feature_types_wf (dtypes_items X_)) as Hwf.
  assert (Hnum : Forall (fun t => t = float_ \/ t = int_)
                   (values (build_feature_types (dtypes_items X_)))).
  { apply fold_schema_values; [|constructor].
    eapply Forall_impl; [|exact Hlisted].
    intros item Hitem. now apply listed_dtype_is_numeric. }
  destruct (sample_input_loop_spec random (build_feature_types (dtypes_items X_)) [] st Hwf)
    as (entries & Heq & Hall); [intros k _ []|].
  assert (Hsample : sample = entries) by exact Heq.
  rewrite model_fields_module_globals.
  assert (Hkeys : keys sample = keys (build_feature_types (dtypes_items X_))).
  { rewrite Hsample. clear -Hall. unfold keys.
    induction Hall as [|f e fs es [Hk _] _ IH]; simpl; [reflexivity|].
    now rewrite Hk, IH. }
  assert (Hvalid : model_validate (InputData (module_globals X_ (Some m))) (Dict sample)
                   = inr sample).
  { apply model_validate_Dict. rewrite model_fields_module_globals, Hsample.
    apply validate_fields_instance; [exact Hwf|].
    clear -Hall Hnum. unfold values in Hnum. rewrite Forall_map in Hnum.
    induction Hall as [|[n t] [n' v] fs es [Hk Hty] _ IH]; [constructor|].
    inversion Hnum as [|? ? Ht Hnum']; subst. constructor; [|now apply IH].
    simpl in *. split; [exact Hk|].
    destruct Ht as [-> | ->]; destruct Hty as [x ->];
      [apply coerce_float|apply coerce_int]. }
  split; [exact Hkeys|]. split; [exact Hvalid|].
  destruct (instance_has_columns _ _ _ Hvalid) as [row Hrow].
  destruct (getitem_columns_spec _ _ Hrow) as [Hk Hc].
  exists row. repeat split; [exact Hk|exact Hc|].
  now apply post_predict_validated with (data := sample).
Qed.
End ClientProperties.

Lemma sample_request_is_accepted_witness :
  model_validate (pydantic := exact_numbers)
    (InputData (module_globals example_X (Some (constant_model 1))))
    (Dict (sample_input counting_random (build_feature_types (dtypes_items example_X)) O))
  = inr [("revenue", Float 500.5); ("debt_ratio", Float 500.5); ("employees", Int 2)].
Proof.
  refine (proj1 (proj2 (@sample_request_is_accepted exact_numbers nat counting_random O
                          example_X (constant_model 1) [] _))).
  simpl. repeat constructor; simpl; tauto.
Defined.

(** ** Further properties: the readiness wait against the service *)

(** X11: the payload of [health] satisfies the wait's condition exactly when a
    model other than [None] is bound and [X] has at least one column, and a
    payload that satisfies it passes the test's three assertions. *)
Theorem health_ready_iff_service_ready (g : globals) (j : dict value) :
  health g = Ok j ->
  health_ready j = service_ready g /\
  (health_ready j = true -> health_assertions j = true).
Proof.
  unfold health. intros H. inversion H; subst j; clear H.
  unfold health_ready, health_assertions, service_ready, get_or_None, get_default,
    assoc_get_default.
  destruct g as [[X_|] ft cls [[m|]|]]; cbn; try (split; [reflexivity|discriminate]).
  destruct (List.length (columns X_)) as [|n]; cbn; split; auto; discriminate.
Qed.

Lemma health_ready_iff_service_ready_witness :
  health_ready [("status", Str "ok"); ("model_loaded", Bool true); ("n_features", Int 3)]
  = service_ready (module_globals example_X (Some (constant_model 1))).
Proof.
  exact (proj1 (@health_ready_iff_service_ready
                  (module_globals example_X (Some (constant_model 1))) _ eq_refl)).
Defined.

Lemma wait_loop_app before : forall last rest,
  Forall (fun p => forall t j, p = answered 200 t (Ok (Dict j)) -> health_ready j = false) before ->
  exists last', wait_loop (before ++ rest) last = wait_loop rest last' /\
                (before = [] -> last' = last).
Proof.
  induction before as [|p before IH]; intros last rest Hall.
  - exists last. now split.
  - inversion Hall as [|? ? Hp Hrest]; subst.
    assert (Hgo : forall l, exists last', wait_loop (before ++ rest) l = wait_loop rest last' /\
                                          (p :: before = [] -> last' = last)).
    { intros l. destruct (IH l rest Hrest) as (l' & Hl & _). exists l'. split; [exact Hl|discriminate]. }
    cbn [app wait_loop]. destruct p as [e|status text json]; [apply Hgo|].
    destruct (Z.eqb_spec status 200) as [->|Hs]; [|apply Hgo].
    destruct json as [v|e]; [|apply Hgo].
    destruct v; try apply Hgo.
    rewrite (Hp text d eq_refl). apply Hgo.
Qed.

(** X12: [wait_for_health] returns a payload exactly when some round before the
    deadline was answered 200 with a JSON object that satisfies the
    condition, and it returns the first such object; rounds that raised,
    had another status or another body are skipped. *)
Theorem wait_for_health_returns_first_ready (polls : list poll) (j : dict value) :
  wait_for_health polls = returned j <->
  exists before text rest,
    polls = before ++ answered 200 text (Ok (Dict j)) :: rest /\
    health_ready j = true /\
    Forall (fun p => forall t j', p = answered 200 t (Ok (Dict j')) -> health_ready j' = false)
           before.
Proof.
  unfold wait_for_health. split.
  - generalize (@None last_seen). induction polls as [|p polls IH]; intros last H.
    + discriminate.
    + assert (Hskip : forall l,
                (forall t j', p = answered 200 t (Ok (Dict j')) -> health_ready j' = false) ->
                wait_loop polls l = returned j ->
                exists before text rest,
                  p :: polls = before ++ answered 200 text (Ok (Dict j)) :: rest /\
                  health_ready j = true /\
                  Forall (fun p => forall t j', p = answered 200 t (Ok (Dict j')) ->
                                                health_ready j' = false) before).
      { intros l Hp Hl. destruct (IH l Hl) as (before & text & rest & -> & Hr & Hall).
        exists (p :: before), text, rest. repeat split; auto. }
      cbn [wait_loop] in H. destruct p as [e|status text json].
      * eapply Hskip; [discriminate|exact H].
      * destruct (Z.eqb_spec status 200) as [->|Hs];
          [|eapply Hskip; [intros t j' Heq; inversion Heq; congruence|exact H]].
        destruct json as [v|e]; [|eapply Hskip; [discriminate|exact H]].
        destruct v; try (eapply Hskip; [discriminate|exact H]).
        destruct (health_ready d) eqn:Hd.
        -- inversion H; subst. exists [], text, polls. repeat split; auto.
        -- eapply Hskip; [|exact H]. intros t j' Heq. inversion Heq; now subst.
  - intros (before & text & rest & -> & Hr & Hall).
    destruct (wait_loop_app None (answered 200 text (Ok (Dict j)) :: rest) Hall)
      as (last' & -> & _).
    cbn [wait_loop]. now rewrite Z.eqb_refl, Hr.
Qed.



(** ** Further properties: the handler's failures and its use of the model *)

Lemma predict_without_model X_ data row calls :
  getitem_columns data (columns X_) = Ok row ->
  predict (module_globals X_ None) data calls
  = (Raise (AttributeError "'NoneType' object has no attribute 'predict'"), calls).
Proof.
  intros Hrow. unfold predict, bind, lift, pd_DataFrame_records, model_dump.
  cbn [module_globals X model global model_predict]. now rewrite Hrow.
Qed.


Section HandlerProperties.
Context {pydantic : FieldValidator}.

(** X7: when the artifact unpickles to [None] the service still starts; it
    reports [model_loaded: false] and answers every valid request 500 with
    an AttributeError, without a model invocation. *)
Theorem none_artifact_starts_but_cannot_predict
    (env : environment) (X_ : DataFrame) (body : value) (data : dict value)
    (calls : list row_frame) :
  load_X env = Ok X_ ->
  joblib_load env model_filename = Ok None ->
  import_module env = Ok (module_globals X_ None) /\
  get (match health (module_globals X_ None) with Ok j => j | Raise _ => [] end)
      "model_loaded" = Some (Bool false) /\
  (model_validate (InputData (module_globals X_ None)) body = inr data ->
   post_predict (module_globals X_ None) body calls
   = (Internal_500 (AttributeError "'NoneType' object has no attribute 'predict'"), calls)).
Proof.
  intros HX Hload. split; [|split].
  - unfold import_module, load_model. now rewrite HX, Hload.
  - reflexivity.
  - intros Hv. destruct (instance_has_columns _ _ _ Hv) as [row Hrow].
    unfold post_predict. rewrite Hv.
    now rewrite (predict_without_model _ _ calls Hrow).
Qed.

(** X8: the handler does not catch what the model raises.  After the one
    invocation on the aligned frame, an exception of [model.predict] other
    than an [HTTPException] ends the request with a 500, an [HTTPException]
    is answered with its own status code and detail, and an empty array of
    codes ends the request with a 500 for the IndexError. *)
Theorem model_errors_become_500
    (X_ : DataFrame) (m : Model) (body : value) (data : dict value)
    (calls : list row_frame) :
  model_validate (InputData (module_globals X_ (Some m))) body = inr data ->
  exists row,
    keys row = columns X_ /\
    snd (post_predict (module_globals X_ (Some m)) body calls) = calls ++ [row] /\
    (forall e, m row = Raise e ->
       (forall status_code detail, e <> HTTPException status_code detail) ->
       fst (post_predict (module_globals X_ (Some m)) body calls) = Internal_500 e) /\
    (forall status_code detail, m row = Raise (HTTPException status_code detail) ->
       fst (post_predict (module_globals X_ (Some m)) body calls)
       = HTTP_error status_code detail) /\
    (m row = Ok [] ->
       fst (post_predict (module_globals X_ (Some m)) body calls)
       = Internal_500 (IndexError "index 0 is out of bounds for axis 0 with size 0")).
Proof.
  intros Hv. destruct (instance_has_columns _ _ _ Hv) as [row Hrow].
  destruct (getitem_columns_spec _ _ Hrow) as [Hk _].
  exists row. rewrite (post_predict_validated _ _ _ _ Hv Hrow).
  repeat split; [exact Hk| | |].
  - intros e He Hnot. cbn [fst]. rewrite He. cbn [prediction_payload].
    destruct e; try reflexivity. now contradiction (Hnot status_code detail).
  - intros status_code detail He. cbn [fst]. now rewrite He.
  - intros He. cbn [fst]. now rewrite He.
Qed.



End HandlerProperties.

Lemma none_artifact_starts_but_cannot_predict_witness :
  post_predict (pydantic := exact_numbers)
    (module_globals example_imputed None)
    (Dict [("Revenue", Float 1.5); ("Sector", Float 3); ("Employees", Float 12)]) []
  = (Internal_500 (AttributeError "'NoneType' object has no attribute 'predict'"), []).
Proof.
  refine (proj2 (proj2 (@none_artifact_starts_but_cannot_predict exact_numbers
                          (example_environment (Ok None)) example_imputed
                          (Dict [("Revenue", Float 1.5); ("Sector", Float 3);
                                 ("Employees", Float 12)])
                          [("Revenue", Float 1.5); ("Sector", Float 3); ("Employees", Float 12)]
                          [] eq_refl eq_refl)) eq_refl).
Defined.

Lemma model_errors_become_500_witness :
  fst (post_predict (pydantic := exact_numbers)
         (module_globals example_X (Some (scaled_model 1))) (Dict example_request_infinite) [])
  = Internal_500
      (ValueError "Input X contains infinity or a value too large for dtype('float64').") /\
  fst (post_predict (pydantic := exact_numbers)
         (module_globals example_X (Some (raising_model 404 "Not Found")))
         (Dict example_request_infinite) [])
  = HTTP_error 404 "Not Found".
Proof.
  split.
  - destruct (@model_errors_become_500 exact_numbers example_X (scaled_model 1)
                (Dict example_request_infinite)
                [("revenue", Float PrimFloat.infinity); ("debt_ratio", Float 0.3);
                 ("employees", Int 50)] [] eq_refl) as (row & _ & Hsnd & H500 & _).
    vm_compute in Hsnd. injection Hsnd as <-.
    apply H500; [reflexivity|discriminate].
  - destruct (@model_errors_become_500 exact_numbers example_X
                (raising_model 404 "Not Found") (Dict example_request_infinite)
                [("revenue", Float PrimFloat.infinity); ("debt_ratio", Float 0.3);
                 ("employees", Int 50)] [] eq_refl) as (row & _ & _ & _ & Hhttp & _).
    exact (Hhttp 404%Z "Not Found" eq_refl).
Defined.

(** ** Further properties: start-up *)

(** X6: in a started service [n_features] is the number of columns of the
    dataset; the request model has at most that many fields, and exactly the
    dataset's column labels, in order, when the labels are distinct. *)
Theorem n_features_counts_dataset_columns
    (env : environment) (g : globals) (X0 : DataFrame) :
  import_module env = Ok g ->
  get_data env = Ok X0 ->
  (exists model_loaded,
      health g = Ok [("status", Str "ok"); ("model_loaded", Bool model_loaded);
                     ("n_features", Int (Z.of_nat (List.length (columns X0))))]) /\
  (List.length (model_fields (InputData g)) <= List.length (columns X0))%nat /\
  (NoDup (columns X0) -> keys (model_fields (InputData g)) = columns X0).
Proof.
  intros Himp Hdata.
  destruct (import_module_Ok _ Himp) as (X_ & m & HX & ->).
  destruct (load_X_spec _ HX) as (X1 & a & Hdata' & _ & Hcols & _).
  rewrite Hdata in Hdata'. inversion Hdata'; subst X1; clear Hdata'.
  rewrite model_fields_module_globals. split; [|split].
  - unfold health. cbn [module_globals X model global]. rewrite Hcols.
    destruct m; now eexists.
  - rewrite <- Hcols. unfold columns. rewrite length_map.
    apply (fold_schema_length (dtypes_items X_) []).
  - intros Hnd. rewrite <- Hcols in *. unfold build_feature_types.
    rewrite fold_schema_fresh; [|exact Hnd|intros c _ []].
    cbn [app]. unfold keys, columns. rewrite map_map. apply map_ext. now intros [c d].
Qed.

Lemma n_features_counts_dataset_columns_witness :
  keys (model_fields (InputData (module_globals example_imputed (Some (constant_model 1)))))
  = columns example_dataset.
Proof.
  refine (proj2 (proj2 (@n_features_counts_dataset_columns
                          (example_environment (Ok (Some (constant_model 1))))
                          (module_globals example_imputed (Some (constant_model 1)))
                          example_dataset eq_refl eq_refl)) _).
  simpl. repeat constructor; simpl; intuition discriminate.
Defined.

Section StartupFailureProperties.
Context {pydantic : FieldValidator}.

(** X10: only [joblib.load] is guarded.  When fetching the dataset or imputing
    it raises, or the imputer's array has another number of columns than
    the dataset (a ValueError of [pd.DataFrame]), the import ends with that
    exception as it is, not with an HTTPException, and no request is
    answered. *)
Theorem startup_failure_before_loader
    (env : environment) (rqs : list request) (e : exn) :
  load_X env = Raise e ->
  serve env rqs = {| startup_error := Some e; responses := []; invocations := [] |} /\
  (get_data env = Raise e \/
   exists X0, get_data env = Ok X0 /\
     (fit_transform env X0 = Raise e \/
      exists a msg, fit_transform env X0 = Ok a /\
                    nd_columns a <> List.length (columns X0) /\ e = ValueError msg)).
Proof.
  intros HX. split.
  - unfold serve, import_module. now rewrite HX.
  - unfold load_X, pd_DataFrame in HX.
    destruct (get_data env) as [X0|e0]; [|left; congruence].
    right. exists X0. split; [reflexivity|].
    destruct (fit_transform env X0) as [a|e1]; [|left; congruence].
    right. destruct (Nat.eqb_spec (nd_columns a) (List.length (columns X0))) as [Heq|Hne];
      [discriminate|].
    inversion HX. now exists a, "Shape of passed values does not match the columns".
Qed.
End StartupFailureProperties.

Lemma startup_failure_before_loader_witness :
  serve (pydantic := exact_numbers)
    {| get_data := Ok example_dataset;
       fit_transform := fun _ => Ok {| nd_dtype := "float64"; nd_columns := 2 |};
       joblib_load := fun _ => Ok (Some (constant_model 1)) |}
    [GET_health]
  = {| startup_error := Some (ValueError "Shape of passed values does not match the columns");
       responses := []; invocations := [] |}.
Proof.
  exact (proj1 (@startup_failure_before_loader exact_numbers
                  {| get_data := Ok example_dataset;
                     fit_transform := fun _ => Ok {| nd_dtype := "float64"; nd_columns := 2 |};
                     joblib_load := fun _ => Ok (Some (constant_model 1)) |}
                  [GET_health] _ eq_refl)).
Defined.
